(** * elaphe.symbology.util.translation

    A shallow embedding of [translation.py]: the character map builder
    [charmap], the generator [Translation.translate] with its three error
    policies, and the two resolvers [MapTranslation.translate_chars] and
    [Code128Translation.translate_chars].

    The module is Python 2 code ([except TranslationError, e]); messages are
    byte strings, modelled as [string] over 8-bit [ascii]. *)

From Stdlib Require Import ZArith Ascii String List Lia Bool DecimalString.
From stdpp Require Import base decidable option list gmap strings.

Local Open Scope Z_scope.
Local Open Scope string_scope.

(** ** Python values and exceptions *)

(** The Python objects that flow through the module: [None],
    [NotImplemented], integers, byte strings, and the two marker classes
    [Translation.RAISE_ON_ERROR] and [Translation.IGNORE_ON_ERROR]. *)
Inductive pyval : Type :=
| PyNone
| PyNotImplemented
| PyInt (n : Z)
| PyStr (s : string)
| RAISE_ON_ERROR
| IGNORE_ON_ERROR.

#[global] Instance pyval_eq_dec : EqDecision pyval.
Proof. solve_decision. Defined.

(** Code sets of Code 128; the attribute [code] holds ['A'], ['B'], ['C']
    or [None]. *)
Inductive codeset : Type := code_A | code_B | code_C.

#[global] Instance codeset_eq_dec : EqDecision codeset.
Proof. solve_decision. Defined.

(** The message templates of the four [raise TranslationError(...)] sites,
    with the arguments they are formatted with. *)
Inductive message_text : Type :=
| unable_to_translate (chars : string)
| not_in_allowed_chars (chars : string)
| not_allowed_for_escape (escaped : string)
| not_in_code_table (char : ascii) (code : codeset).

(** Exceptions. [TranslationError] derives from [ValueError], so a handler
    for [TranslationError] does not catch a plain [ValueError], nor a
    [UnicodeDecodeError], which derives from [ValueError] too. *)
Inductive exn : Type :=
| TranslationError (msg : message_text)
| ValueError
| UnicodeDecodeError
| IndexError
| KeyError
| TypeError.

(** What a call evaluates to: a returned object or a raised exception. *)
Inductive outcome : Type :=
| Return (v : pyval)
| Raise (e : exn).

(** ** Strings *)

(** A one-character string, as produced by iterating over a [str]. *)
Definition str1 (c : ascii) : string := String c EmptyString.

Definition len (s : string) : Z := Z.of_nat (String.length s).

(** [str.index] for a one-character needle: the first position, or nothing
    (where Python raises [ValueError]). *)
Fixpoint index_from (i : Z) (c : ascii) (s : string) : option Z :=
  match s with
  | EmptyString => None
  | String d s' => if decide (d = c) then Some i else index_from (i + 1) c s'
  end.

Definition index (s : string) (c : ascii) : option Z := index_from 0 c s.

(** ** charmap *)

(** [dict(gen)] inserts the pairs in generation order, so a later pair
    replaces an earlier one with the same key. *)
Fixpoint charmap_from (idx : Z) (chars : string) (offset : Z) (skip_char : pyval)
    (acc : gmap string pyval) : gmap string pyval :=
  match chars with
  | EmptyString => acc
  | String char rest =>
      let value :=
        if decide (PyStr (str1 char) ≠ skip_char) then PyInt (idx + offset)
        else PyNone in
      charmap_from (idx + 1) rest offset skip_char (<[str1 char := value]> acc)
  end.

Definition charmap (chars : string) (offset : Z) (skip_char : pyval)
  : gmap string pyval :=
  charmap_from 0 chars offset skip_char ∅.

(** Position of the last occurrence of a character ([str.rindex]). *)
Fixpoint rindex_from (i : Z) (c : ascii) (s : string) : option Z :=
  match s with
  | EmptyString => None
  | String d s' =>
      match rindex_from (i + 1) c s' with
      | Some j => Some j
      | None => if decide (d = c) then Some i else None
      end
  end.

Definition rindex (s : string) (c : ascii) : option Z := rindex_from 0 c s.

(** The characters of a string, in order. *)
Fixpoint chars_of (s : string) : list ascii :=
  match s with
  | EmptyString => []
  | String c s' => c :: chars_of s'
  end.

(** [s[a:b]] for [0 <= a <= b]. *)
Definition slice (s : string) (a b : nat) : string := substring a (b - a) s.

Definition is_digit (c : ascii) : bool :=
  let n := nat_of_ascii c in (48 <=? n)%nat && (n <=? 57)%nat.

(** C [isspace] in the default locale: space, [\t], [\n], [\v], [\f], [\r]. *)
Definition is_space (c : ascii) : bool :=
  let n := nat_of_ascii c in (n =? 32)%nat || ((9 <=? n)%nat && (n <=? 13)%nat).

Fixpoint all_chars (p : ascii → bool) (s : string) : bool :=
  match s with
  | EmptyString => true
  | String c s' => p c && all_chars p s'
  end.

(** [str.isdigit]: at least one character and all of them decimal digits. *)
Definition isdigit (s : string) : bool :=
  match s with
  | EmptyString => false
  | _ => all_chars is_digit s
  end.

(** A byte the ascii codec decodes: one below 0x80. *)
Definition is_7bit (c : ascii) : bool := (nat_of_ascii c <? 128)%nat.

Definition ascii_decodable (s : string) : bool := all_chars is_7bit s.

(** The byte string a message template is formatted with. *)
Definition message_argument (msg : message_text) : string :=
  match msg with
  | unable_to_translate chars => chars
  | not_in_allowed_chars chars => chars
  | not_allowed_for_escape escaped => escaped
  | not_in_code_table char _ => str1 char
  end.

(** [TranslationError(u'...%s...' % arg)]. The templates are unicode
    literals, so the [%] formatting, which runs before the exception is
    built, decodes the byte string [arg] with the ascii codec: on a byte
    >= 0x80 it raises [UnicodeDecodeError] and no [TranslationError] comes
    to exist.  (The list [allowed_chars] is formatted through its [repr],
    which is ASCII.) *)
Definition formatted_TranslationError (msg : message_text) : exn :=
  if ascii_decodable (message_argument msg) then TranslationError msg
  else UnicodeDecodeError.
Arguments formatted_TranslationError : simpl never.

Definition digit_value (c : ascii) : Z := Z.of_nat (nat_of_ascii c) - 48.

(** Value of a run of decimal digits read left to right, from [acc]. *)
Fixpoint decimal_from (acc : Z) (s : string) : Z :=
  match s with
  | EmptyString => acc
  | String c s' => decimal_from (10 * acc + digit_value c) s'
  end.

Definition decimal (s : string) : Z := decimal_from 0 s.

Fixpoint lstrip (s : string) : string :=
  match s with
  | String c s' => if is_space c then lstrip s' else s
  | EmptyString => s
  end.

(** The leading digits of a string and what follows them. *)
Fixpoint span_digits (s : string) : string * string :=
  match s with
  | String c s' =>
      if is_digit c then
        let '(ds, tl) := span_digits s' in (String c ds, tl)
      else (EmptyString, s)
  | EmptyString => (EmptyString, EmptyString)
  end.

(** [int(s, 10)] on a byte string: optional surrounding whitespace, an
    optional sign directly before the digits, at least one digit; anything
    else is a [ValueError], here [None]. *)
Definition int (s : string) : option Z :=
  let s1 := lstrip s in
  let '(sign, s2) :=
    match s1 with
    | String c r =>
        if decide (c = "+"%char) then (1, r)
        else if decide (c = "-"%char) then (-1, r)
        else (1, s1)
    | EmptyString => (1, s1)
    end in
  let '(ds, tl) := span_digits s2 in
  match ds with
  | EmptyString => None
  | _ => if all_chars is_space tl then Some (sign * decimal ds) else None
  end.

(** ** Translation: the generator *)

(** The interface a translation class offers to [translate]: [reset] and
    [translate_chars], both acting on the instance [self]. *)
Class Translator (T : Type) := {
  reset : T → T;
  translate_chars : T → string → outcome * T
}.

(** How iterating a generator ends. *)
Inductive ending : Type :=
| StopIteration
| Raised (e : exn).

(** The observable run of a generator: the objects it yields, in order, how
    it ends, and the instance and local queue at that point. *)
Record run (T : Type) : Type := mk_run {
  yielded : list pyval;
  stop : ending;
  self_after : T;
  queue_after : string
}.
Arguments mk_run {T} _ _ _ _.
Arguments yielded {T} _.
Arguments stop {T} _.
Arguments self_after {T} _.
Arguments queue_after {T} _.

(** One pass through the body of [for char in message]. *)
Inductive pass (T : Type) : Type :=
| Next (self : T) (queue : string) (out : option pyval)
| Halt (self : T) (queue : string) (e : exn).
Arguments Next {T} _ _ _.
Arguments Halt {T} _ _ _.

Definition loop_body {T} `{Translator T} (self : T) (queue : string)
    (char : ascii) (on_error : pyval) : pass T :=
  let queue := queue ++ str1 char in
  match translate_chars self queue with
  | (Raise (TranslationError msg), self) =>
      if decide (on_error = RAISE_ON_ERROR) then
        Halt self queue (TranslationError msg)
      else if decide (on_error = IGNORE_ON_ERROR) then
        Next self "" None
      else if decide (on_error ≠ PyNone) then
        Next self "" (Some on_error)
      else
        Next self "" None
  | (Raise e, self) => Halt self queue e
  | (Return PyNone, self) => Next self queue None
  | (Return PyNotImplemented, self) => Halt self queue TypeError
  | (Return ordinal, self) => Next self "" (Some ordinal)
  end.

Definition emit {T} (out : option pyval) (r : run T) : run T :=
  match out with
  | Some v => mk_run (v :: yielded r) (stop r) (self_after r) (queue_after r)
  | None => r
  end.

Fixpoint translate_loop {T} `{Translator T} (self : T) (queue : string)
    (message : string) (on_error : pyval) : run T :=
  match message with
  | EmptyString => mk_run [] StopIteration self queue
  | String char rest =>
      match loop_body self queue char on_error with
      | Next self queue out => emit out (translate_loop self queue rest on_error)
      | Halt self queue e => mk_run [] (Raised e) self queue
      end
  end.

Definition translate {T} `{Translator T} (self : T) (message : string)
    (on_error : pyval) : run T :=
  translate_loop (reset self) "" message on_error.

(** The base class: no attributes, [reset] does nothing and
    [translate_chars] returns [NotImplemented]. *)
Inductive Translation : Type := Translation_init.

#[global] Instance Translation_translator : Translator Translation := {
  reset self := self;
  translate_chars self chars := (Return PyNotImplemented, self)
}.

(** ** MapTranslation *)

Record MapTranslation : Type := mk_MapTranslation {
  min_chars : Z;
  max_chars : Z;
  map : gmap string pyval;
  allowed_chars : list string
}.

(** [dict.keys()]: in Python 2 a new list holding the keys the dict has at
    the time of the call. *)
Definition keys (d : gmap string pyval) : list string := (map_to_list d).*1.

(** [d.update(e)]: every entry of [e] is written into [d]. *)
Definition update (d e : gmap string pyval) : gmap string pyval := e ∪ d.

(** [MapTranslation.__init__]. [allowed_chars] is taken from [map_] before
    [extra_map] is merged; [if extra_map:] is false for [None] and for the
    empty dict. *)
Definition MapTranslation_init (map_ : gmap string pyval)
    (min_chars max_chars : Z) (extra_map : option (gmap string pyval))
  : MapTranslation :=
  let allowed_chars := keys map_ in
  let map :=
    match extra_map with
    | Some extra => if decide (extra = ∅) then map_ else update map_ extra
    | None => map_
    end in
  mk_MapTranslation min_chars max_chars map allowed_chars.

(** [dict.get(key)]: the value, or [None] when the key is missing. *)
Definition get (d : gmap string pyval) (key : string) : pyval :=
  default PyNone (d !! key).

Definition MapTranslation_translate_chars (self : MapTranslation)
    (chars : string) : outcome * MapTranslation :=
  if decide (len chars < min_chars self) then
    (Return PyNone, self)
  else if decide (len chars > max_chars self) then
    (Raise (formatted_TranslationError (unable_to_translate chars)), self)
  else if decide (chars ∉ allowed_chars self) then
    (Raise (formatted_TranslationError (not_in_allowed_chars chars)), self)
  else
    (Return (get (map self) chars), self).

#[global] Instance MapTranslation_translator : Translator MapTranslation := {
  reset self := self;
  translate_chars := MapTranslation_translate_chars
}.

(** ** Code128Translation *)

Definition chr (i : nat) : ascii := ascii_of_nat i.

Definition ASCII_7BITS : string :=
  string_of_list_ascii (List.map chr (seq 0 128)).

Definition CODE_A_TABLE : string :=
  slice ASCII_7BITS 32 96 ++ slice ASCII_7BITS 0 32.

Definition CODE_B_TABLE : string := slice ASCII_7BITS 32 128.

(** [CODE_TABLES] has the keys ['A'] and ['B'] only. *)
Definition CODE_TABLES (code : codeset) : option string :=
  match code with
  | code_A => Some CODE_A_TABLE
  | code_B => Some CODE_B_TABLE
  | code_C => None
  end.

Record Code128Translation : Type := mk_Code128Translation {
  code : option codeset
}.

Definition Code128Translation_init : Code128Translation :=
  mk_Code128Translation None.

Definition Code128Translation_reset (self : Code128Translation)
  : Code128Translation :=
  mk_Code128Translation None.

(** [ordinal in range(96, 108)]. *)
Definition in_range (lo hi n : Z) : bool := ((lo <=? n) && (n <? hi))%Z.

(** The mode an in-range escape ordinal leaves in [self.code]. *)
Definition shifted (ordinal : Z) (code : option codeset) : option codeset :=
  if decide (ordinal = 99 ∨ ordinal = 105) then Some code_C
  else if decide (ordinal = 100 ∨ ordinal = 104) then Some code_B
  else if decide (ordinal = 101 ∨ ordinal = 103) then Some code_A
  else code.

(** [translate_chars]. [chars[0]] on an empty queue is an [IndexError];
    [len(chars)==1] is the rest after [chars[0]] being empty, and [chars[1]]
    is the first character of that rest. *)
Definition Code128Translation_translate_chars (self : Code128Translation)
    (chars : string) : outcome * Code128Translation :=
  match chars with
  | EmptyString => (Raise IndexError, self)
  | String c0 rest =>
      if decide (c0 = "^"%char) then
        match rest with
        | EmptyString => (Return PyNone, self)
        | String c1 _ =>
            if decide (c1 = "^"%char) then (Return (PyInt 62), self)
            else
              let escaped := rest in
              if isdigit escaped then
                match int escaped with
                | None => (Raise ValueError, self)
                | Some ordinal =>
                    if decide (ordinal < 96) then (Return PyNone, self)
                    else if in_range 96 108 ordinal then
                      (Return (PyInt ordinal),
                       mk_Code128Translation (shifted ordinal (code self)))
                    else
                      (Raise (formatted_TranslationError
                                (not_allowed_for_escape escaped)),
                       self)
                end
              else
                (Raise (formatted_TranslationError
                          (not_allowed_for_escape escaped)), self)
        end
      else
        match code self with
        | Some ((code_A | code_B) as cs) =>
            match CODE_TABLES cs with
            | None => (Raise KeyError, self)
            | Some code_table =>
                (* [str.index] raises [ValueError]; the handler around it
                   names [IndexError] and lets it through. *)
                match index code_table c0 with
                | Some ordinal => (Return (PyInt ordinal), self)
                | None => (Raise ValueError, self)
                end
            end
        | Some code_C =>
            if decide (len chars = 2) then
              match int chars with
              | Some ordinal => (Return (PyInt ordinal), self)
              | None => (Raise ValueError, self)
              end
            else (Return PyNone, self)
        | None => (Return PyNone, self)
        end
  end.

#[global] Instance Code128Translation_translator
  : Translator Code128Translation := {
  reset := Code128Translation_reset;
  translate_chars := Code128Translation_translate_chars
}.

(** ** Module-level shortcuts and doctest fixtures *)

(** [digits = MapTranslation(charmap('0123456789')).translate] *)
Definition digits : string → pyval → run MapTranslation :=
  translate (MapTranslation_init (charmap "0123456789" 0 PyNone) 1 1 None).

(** [code128 = Code128Translation().translate] *)
Definition code128 : string → pyval → run Code128Translation :=
  translate Code128Translation_init.

(** [cmt = MapTranslation(charmap('+0123456789'))] of the class docstring. *)
Definition cmt : MapTranslation :=
  MapTranslation_init (charmap "+0123456789" 0 PyNone) 1 1 None.

(** ** Code128Translation.cap_escape *)

(** [ord(c)] of a byte. *)
Definition ord (c : ascii) : Z := Z.of_nat (nat_of_ascii c).

(** [str(n)] of an integer: its decimal numeral. *)
Definition str (n : Z) : string := NilZero.string_of_int (Z.to_int n).

(** [c in s] for a one-character string [c]. *)
Fixpoint contains (s : string) (c : ascii) : bool :=
  match s with
  | EmptyString => false
  | String d s' => if decide (d = c) then true else contains s' c
  end.

(** The constants of Python 2's module [string] in the default locale. *)
Definition string_digits : string := "0123456789".
Definition string_lowercase : string := "abcdefghijklmnopqrstuvwxyz".
Definition string_uppercase : string := "ABCDEFGHIJKLMNOPQRSTUVWXYZ".
Definition string_letters : string := string_lowercase ++ string_uppercase.
Definition string_punctuation : string :=
  "!" ++ str1 (chr 34) ++ "#$%&'()*+,-./:;<=>?@[\]^_`{|}~".
Definition string_whitespace : string :=
  string_of_list_ascii (List.map chr [9; 10; 11; 12; 13; 32]%nat).
Definition string_printable : string :=
  string_digits ++ string_letters ++ string_punctuation ++ string_whitespace.

(** [''.join(c if c in string.printable else '^'+str(ord(c)) for c in s)] *)
Fixpoint cap_escape (s : string) : string :=
  match s with
  | EmptyString => EmptyString
  | String c s' =>
      (if contains string_printable c then str1 c else "^" ++ str (ord c))
      ++ cap_escape s'
  end.

Example cmt_doctest :
  yielded (translate cmt "+++1357+++" PyNone)
  = List.map PyInt [0; 0; 0; 2; 4; 6; 8; 0; 0; 0].
Proof. vm_compute. reflexivity. Qed.

Example code128_doctest :
  yielded (code128 "^105^102123456^100A1" RAISE_ON_ERROR)
  = List.map PyInt [105; 102; 12; 34; 56; 100; 33; 17].
Proof. vm_compute. reflexivity. Qed.

Example cap_escape_doctest :
  cap_escape "abcdef" = "abcdef"
  ∧ cap_escape (string_of_list_ascii
                  (List.map chr [1; 2; 3; 8; 16; 24; 72; 80; 88; 128; 136; 144;
                                 160]%nat))
    = "^1^2^3^8^16^24HPX^128^136^144^160".
Proof. split; vm_compute; reflexivity. Qed.

(** * Properties *)

(** ** Strings and positions *)

Lemma get_chars_of (s : string) (n : nat) :
  String.get n s = chars_of s !! n.
Proof.
  revert n. induction s as [|d s IH]; intros [|n]; simpl; auto.
Qed.

Lemma rindex_from_absent (s : string) (i : Z) (c : ascii) :
  (∀ m, String.get m s ≠ Some c) → rindex_from i c s = None.
Proof.
  revert i. induction s as [|d s IH]; intros i Habs; simpl; [done|].
  rewrite IH by (intros m; apply (Habs (S m))).
  destruct (decide (d = c)) as [->|]; [|done].
  by destruct (Habs 0%nat).
Qed.

Lemma rindex_from_last (s : string) (i : Z) (c : ascii) (n : nat) :
  String.get n s = Some c →
  (∀ m, (n < m)%nat → String.get m s ≠ Some c) →
  rindex_from i c s = Some (i + Z.of_nat n).
Proof.
  revert i n. induction s as [|d s IH]; intros i n Hn Hlast; [by destruct n|].
  destruct n as [|n]; simpl in *.
  - injection Hn as ->.
    rewrite rindex_from_absent by (intros m; apply (Hlast (S m)); lia).
    rewrite decide_True by done. f_equal. lia.
  - rewrite (IH (i + 1) n Hn) by (intros m Hm; apply (Hlast (S m)); lia).
    f_equal. lia.
Qed.

Lemma rindex_from_present (s : string) (i : Z) (c : ascii) (n : nat) :
  String.get n s = Some c → is_Some (rindex_from i c s).
Proof.
  revert i n. induction s as [|d s IH]; intros i n Hn; [by destruct n|].
  destruct n as [|n]; simpl in *.
  - injection Hn as ->. destruct (rindex_from (i + 1) c s); [eauto|].
    rewrite decide_True by done. eauto.
  - destruct (IH (i + 1) n Hn) as [j ->]. eauto.
Qed.

(** ** charmap *)

(** The value [charmap] gives a character, in terms of the accumulator it
    started from and the character's last position. *)
Lemma charmap_from_lookup (chars : string) (idx offset : Z) (skip_char : pyval)
    (acc : gmap string pyval) (c : ascii) :
  charmap_from idx chars offset skip_char acc !! str1 c =
  match rindex_from idx c chars with
  | Some j =>
      Some (if decide (PyStr (str1 c) ≠ skip_char) then PyInt (j + offset)
            else PyNone)
  | None => acc !! str1 c
  end.
Proof.
  revert idx acc. induction chars as [|d chars IH]; intros idx acc; simpl; [done|].
  rewrite IH. destruct (rindex_from (idx + 1) c chars); [done|].
  destruct (decide (d = c)) as [->|Hne].
  - by rewrite lookup_insert_eq.
  - rewrite lookup_insert_ne; [done|]. unfold str1. congruence.
Qed.

Lemma charmap_lookup (chars : string) (offset : Z) (skip_char : pyval)
    (c : ascii) :
  charmap chars offset skip_char !! str1 c =
  match rindex chars c with
  | Some j =>
      Some (if decide (PyStr (str1 c) ≠ skip_char) then PyInt (j + offset)
            else PyNone)
  | None => None
  end.
Proof.
  unfold charmap, rindex. rewrite charmap_from_lookup.
  by destruct (rindex_from 0 c chars).
Qed.

(** Only one-character strings are keys. *)
Lemma charmap_from_keys (chars : string) (idx offset : Z) (skip_char : pyval)
    (acc : gmap string pyval) (k : string) :
  (∀ c, k ≠ str1 c) →
  charmap_from idx chars offset skip_char acc !! k = acc !! k.
Proof.
  intros Hk. revert idx acc.
  induction chars as [|d chars IH]; intros idx acc; simpl; [done|].
  rewrite IH. apply lookup_insert_ne. intros Heq. by apply (Hk d).
Qed.

Lemma charmap_skip (chars : string) (offset : Z) (skip_char : pyval)
    (n : nat) (c : ascii) :
  String.get n chars = Some c → skip_char = PyStr (str1 c) →
  charmap chars offset skip_char !! str1 c = Some PyNone.
Proof.
  intros Hn ->. rewrite charmap_lookup. unfold rindex.
  destruct (rindex_from_present chars 0 c n Hn) as [j ->].
  by rewrite decide_False by (intros H; by apply H).
Qed.

Lemma charmap_last (chars : string) (offset : Z) (skip_char : pyval)
    (n : nat) (c : ascii) :
  String.get n chars = Some c → skip_char ≠ PyStr (str1 c) →
  (∀ m, (n < m)%nat → String.get m chars ≠ Some c) →
  charmap chars offset skip_char !! str1 c = Some (PyInt (offset + Z.of_nat n)).
Proof.
  intros Hn Hskip Hlast. rewrite charmap_lookup. unfold rindex.
  rewrite (rindex_from_last chars 0 c n Hn Hlast).
  rewrite decide_True by congruence. do 2 f_equal. lia.
Qed.

Lemma charmap_distinct (chars : string) (offset : Z) (skip_char : pyval)
    (n : nat) (c : ascii) :
  NoDup (chars_of chars) → skip_char ≠ PyStr (str1 c) →
  String.get n chars = Some c →
  charmap chars offset skip_char !! str1 c = Some (PyInt (offset + Z.of_nat n)).
Proof.
  intros Hnd Hskip Hn. apply charmap_last; [done..|].
  intros m Hm Hm'. rewrite get_chars_of in Hn, Hm'.
  pose proof (NoDup_lookup _ _ _ _ Hnd Hn Hm'). lia.
Qed.

(** C8. [charmap] sends the n-th character of the alphabet to [offset + n]
    when no later position holds the same character (so for a repeated
    character the last occurrence decides), and sends the skip character to
    [None] wherever it stands; on an alphabet of pairwise distinct characters
    none of which is the skip character, every character gets its position
    plus the offset and the map is injective. *)
Theorem charmap_positions (chars : string) (offset : Z) (skip_char : pyval) :
  (∀ (n : nat) (c : ascii),
      String.get n chars = Some c → skip_char = PyStr (str1 c) →
      charmap chars offset skip_char !! str1 c = Some PyNone)
  ∧ (∀ (n : nat) (c : ascii),
      String.get n chars = Some c → skip_char ≠ PyStr (str1 c) →
      (∀ m, (n < m)%nat → String.get m chars ≠ Some c) →
      charmap chars offset skip_char !! str1 c
      = Some (PyInt (offset + Z.of_nat n)))
  ∧ (NoDup (chars_of chars) →
     (∀ c, c ∈ chars_of chars → skip_char ≠ PyStr (str1 c)) →
     (∀ (n : nat) (c : ascii),
         String.get n chars = Some c →
         charmap chars offset skip_char !! str1 c
         = Some (PyInt (offset + Z.of_nat n)))
     ∧ (∀ c1 c2 : ascii,
         c1 ∈ chars_of chars → c2 ∈ chars_of chars →
         charmap chars offset skip_char !! str1 c1
         = charmap chars offset skip_char !! str1 c2 →
         c1 = c2)).
Proof.
  split; [|split].
  - intros n c. apply charmap_skip.
  - intros n c. apply charmap_last.
  - intros Hnd Hskip.
    assert (Hpos : ∀ (n : nat) (c : ascii), String.get n chars = Some c →
      charmap chars offset skip_char !! str1 c
      = Some (PyInt (offset + Z.of_nat n))).
    { intros n c Hn. apply charmap_distinct; [done| |done].
      apply Hskip. rewrite get_chars_of in Hn. by eapply list_elem_of_lookup_2. }
    split; [exact Hpos|].
    intros c1 c2 [n1 H1]%list_elem_of_lookup_1 [n2 H2]%list_elem_of_lookup_1.
    rewrite <- get_chars_of in H1, H2.
    rewrite (Hpos n1 c1 H1), (Hpos n2 c2 H2). intros Heq.
    assert (n1 = n2) as -> by (injection Heq; lia).
    congruence.
Qed.

(** The docstring's alphabet ['0*1*2*3*4'] with offset 100 and skip ['*']. *)
Lemma charmap_positions_witness :
  charmap "0*1*2*3*4" 100 (PyStr "*") !! "*" = Some PyNone
  ∧ charmap "0*1*2*3*4" 100 (PyStr "*") !! "3" = Some (PyInt 106)
  ∧ charmap "0123456789" 0 PyNone !! "7" = Some (PyInt 7).
Proof.
  split; [|split].
  - apply (proj1 (charmap_positions "0*1*2*3*4" 100 (PyStr "*")) 1%nat "*"%char);
      reflexivity.
  - apply (proj1 (proj2 (charmap_positions "0*1*2*3*4" 100 (PyStr "*")))
             6%nat "3"%char); [reflexivity|discriminate|].
    intros m Hm. do 7 (destruct m as [|m]; [lia|]).
    do 2 (destruct m as [|m]; [discriminate|]). destruct m; discriminate.
  - assert (Hnd : NoDup (chars_of "0123456789"))
      by (apply (bool_decide_unpack _); vm_compute; reflexivity).
    destruct (proj2 (proj2 (charmap_positions "0123456789" 0 PyNone)) Hnd)
      as [Hpos _]; [discriminate|].
    apply (Hpos 7%nat "7"%char). reflexivity.
Defined.

(** ** The generator and the error policies *)

Section Driver.
Context {T : Type} `{Translator T}.

(** What one pass does once [translate_chars] has raised
    [TranslationError]. *)
Lemma loop_body_translation_error (self self' : T) (queue : string)
    (char : ascii) (on_error : pyval) (msg : message_text) :
  translate_chars self (queue ++ str1 char)
  = (Raise (TranslationError msg), self') →
  loop_body self queue char on_error =
  if decide (on_error = RAISE_ON_ERROR) then
    Halt self' (queue ++ str1 char) (TranslationError msg)
  else if decide (on_error = IGNORE_ON_ERROR ∨ on_error = PyNone) then
    Next self' "" None
  else Next self' "" (Some on_error).
Proof.
  intros Htc. unfold loop_body. rewrite Htc.
  destruct (decide (on_error = RAISE_ON_ERROR)); [done|].
  destruct (decide (on_error = IGNORE_ON_ERROR)).
  { by rewrite decide_True by (by left). }
  destruct (decide (on_error ≠ PyNone)) as [Hsome|Hnone].
  - by rewrite decide_False by (intros [?|?]; done).
  - rewrite decide_True; [done|]. right.
    by destruct (decide (on_error = PyNone)).
Qed.

(** Any other exception leaves the generator whatever [on_error] is. *)
Lemma loop_body_other_exception (self self' : T) (queue : string)
    (char : ascii) (on_error : pyval) (e : exn) :
  translate_chars self (queue ++ str1 char) = (Raise e, self') →
  (∀ msg, e ≠ TranslationError msg) →
  loop_body self queue char on_error = Halt self' (queue ++ str1 char) e.
Proof.
  intros Htc He. unfold loop_body. rewrite Htc.
  destruct e; try done. by destruct (He msg).
Qed.

(** What one pass does with a returned object. *)
Lemma loop_body_return (self self' : T) (queue : string) (char : ascii)
    (on_error v : pyval) :
  translate_chars self (queue ++ str1 char) = (Return v, self') →
  loop_body self queue char on_error =
  if decide (v = PyNone) then Next self' (queue ++ str1 char) None
  else if decide (v = PyNotImplemented) then
    Halt self' (queue ++ str1 char) TypeError
  else Next self' "" (Some v).
Proof.
  intros Htc. unfold loop_body. rewrite Htc. by destruct v.
Qed.
End Driver.

(** C6. When [translate_chars] raises [TranslationError] on the queue,
    [translate] acts by [on_error]: with [RAISE_ON_ERROR] the exception
    leaves the generator at once and nothing more is yielded; with
    [IGNORE_ON_ERROR] or no [on_error] the queue is emptied and nothing is
    yielded for it; with any other [on_error] the queue is emptied and
    [on_error] itself is yielded once.  On the docstring's digit map
    ['1234xx'] with [on_error='#'] gives [2, 3, 4, 5, '#', '#']. *)
Theorem translate_error_policy :
  (∀ (T : Type) (R : Translator T) (self self' : T) (queue : string)
     (char : ascii) (rest : string) (on_error : pyval) (msg : message_text),
      translate_chars self (queue ++ str1 char)
      = (Raise (TranslationError msg), self') →
      (on_error = RAISE_ON_ERROR →
       translate_loop self queue (String char rest) on_error
       = mk_run [] (Raised (TranslationError msg)) self' (queue ++ str1 char))
      ∧ (on_error = IGNORE_ON_ERROR ∨ on_error = PyNone →
         translate_loop self queue (String char rest) on_error
         = translate_loop self' "" rest on_error)
      ∧ (on_error ≠ RAISE_ON_ERROR → on_error ≠ IGNORE_ON_ERROR →
         on_error ≠ PyNone →
         let r := translate_loop self' "" rest on_error in
         translate_loop self queue (String char rest) on_error
         = mk_run (on_error :: yielded r) (stop r) (self_after r)
             (queue_after r)))
  ∧ (yielded (translate cmt "1234xx" (PyStr "#"))
     = [PyInt 2; PyInt 3; PyInt 4; PyInt 5; PyStr "#"; PyStr "#"]
     ∧ stop (translate cmt "1234xx" (PyStr "#")) = StopIteration)
  ∧ yielded (translate
               (MapTranslation_init (charmap "0123456789" 1 PyNone) 1 1 None)
               "1234xx" (PyStr "#"))
    = [PyInt 2; PyInt 3; PyInt 4; PyInt 5; PyStr "#"; PyStr "#"].
Proof.
  split; [|split; [split|]]; [|vm_compute; reflexivity..].
  intros T R self self' queue char rest on_error msg Htc.
  simpl. rewrite (loop_body_translation_error _ _ _ _ _ _ Htc).
  split; [|split].
  - intros ->. by rewrite decide_True.
  - intros Hign. rewrite decide_False by (destruct Hign; congruence).
    by rewrite decide_True.
  - intros Hr Hi Hn. rewrite decide_False by done.
    by rewrite decide_False by (intros [?|?]; done).
Qed.

(** The docstring's run with [RAISE_ON_ERROR]: the first ['x'] ends it. *)
Lemma translate_error_policy_witness :
  translate cmt "1234xx" RAISE_ON_ERROR
  = mk_run [PyInt 2; PyInt 3; PyInt 4; PyInt 5]
      (Raised (TranslationError (not_in_allowed_chars "x"))) cmt "x"
  ∧ yielded (translate cmt "1234xx" IGNORE_ON_ERROR)
    = [PyInt 2; PyInt 3; PyInt 4; PyInt 5].
Proof.
  pose proof (proj1 translate_error_policy MapTranslation
                MapTranslation_translator cmt cmt "" "x"%char "x") as Hx.
  split.
  - destruct (Hx RAISE_ON_ERROR (not_in_allowed_chars "x")) as (Hr & _ & _);
      [vm_compute; reflexivity|].
    change (translate cmt "1234xx" RAISE_ON_ERROR)
      with (emit (Some (PyInt 2)) (emit (Some (PyInt 3)) (emit (Some (PyInt 4))
              (emit (Some (PyInt 5))
                 (translate_loop cmt "" "xx" RAISE_ON_ERROR))))).
    rewrite Hr by reflexivity. reflexivity.
  - destruct (Hx IGNORE_ON_ERROR (not_in_allowed_chars "x")) as (_ & Hi & _);
      [vm_compute; reflexivity|].
    change (translate cmt "1234xx" IGNORE_ON_ERROR)
      with (emit (Some (PyInt 2)) (emit (Some (PyInt 3)) (emit (Some (PyInt 4))
              (emit (Some (PyInt 5))
                 (translate_loop cmt "" "xx" IGNORE_ON_ERROR))))).
    rewrite Hi by (by left). vm_compute. reflexivity.
Defined.

(** C7. On the base class every pass ends in [TypeError], whatever
    [on_error] is: [translate] on a message with at least one character
    yields nothing and raises [TypeError] at the first character, and
    [TypeError] is not a [TranslationError]. *)
Theorem Translation_translate_type_error (self : Translation)
    (char : ascii) (rest : string) (on_error : pyval) :
  (∀ queue : string,
      loop_body self queue char on_error
      = Halt self (queue ++ str1 char) TypeError)
  ∧ translate self (String char rest) on_error
    = mk_run [] (Raised TypeError) self (str1 char)
  ∧ (∀ msg, TypeError ≠ TranslationError msg).
Proof.
  split; [|split]; done.
Qed.

(** ** Formatting the error message *)

Lemma formatted_TranslationError_ascii (msg : message_text) :
  ascii_decodable (message_argument msg) = true →
  formatted_TranslationError msg = TranslationError msg.
Proof. intros Hd. unfold formatted_TranslationError. by rewrite Hd. Qed.

Lemma formatted_TranslationError_high (msg : message_text) :
  ascii_decodable (message_argument msg) = false →
  formatted_TranslationError msg = UnicodeDecodeError.
Proof. intros Hd. unfold formatted_TranslationError. by rewrite Hd. Qed.

(** ** MapTranslation *)

Lemma elem_of_keys (d : gmap string pyval) (k : string) :
  k ∈ keys d ↔ is_Some (d !! k).
Proof.
  unfold keys. rewrite list_elem_of_fmap. split.
  - intros [[k' v] [-> Hin]]. apply elem_of_map_to_list in Hin. eauto.
  - intros [v Hv]. exists (k, v). split; [done|]. by apply elem_of_map_to_list.
Qed.

Lemma update_lookup (d e : gmap string pyval) (k : string) :
  update d e !! k = match e !! k with Some v => Some v | None => d !! k end.
Proof.
  unfold update. destruct (e !! k) as [v|] eqn:He.
  - by apply lookup_union_Some_l.
  - by rewrite lookup_union_r.
Qed.

(** The merged map read at a key: the extra map's value where it has one. *)
Lemma MapTranslation_init_map (map_ extra : gmap string pyval) (lo hi : Z)
    (k : string) :
  map (MapTranslation_init map_ lo hi (Some extra)) !! k
  = match extra !! k with Some v => Some v | None => map_ !! k end.
Proof.
  simpl. destruct (decide (extra = ∅)) as [->|].
  - by rewrite lookup_empty.
  - apply update_lookup.
Qed.

(** A queue of admissible length that is in [allowed_chars] gets the mapped
    object back, whatever that object is. *)
Lemma MapTranslation_translate_chars_allowed (self : MapTranslation)
    (chars : string) :
  (min_chars self ≤ len chars ≤ max_chars self)%Z →
  chars ∈ allowed_chars self →
  translate_chars self chars = (Return (get (map self) chars), self).
Proof.
  intros [Hlo Hhi] Hin. simpl. unfold MapTranslation_translate_chars.
  rewrite decide_False by lia. rewrite decide_False by lia.
  by rewrite decide_False by (intros Hn; by apply Hn).
Qed.

Lemma MapTranslation_translate_chars_unknown (self : MapTranslation)
    (chars : string) :
  (min_chars self ≤ len chars ≤ max_chars self)%Z →
  chars ∉ allowed_chars self →
  translate_chars self chars
  = (Raise (formatted_TranslationError (not_in_allowed_chars chars)), self).
Proof.
  intros [Hlo Hhi] Hin. simpl. unfold MapTranslation_translate_chars.
  rewrite decide_False by lia. rewrite decide_False by lia.
  by rewrite decide_True.
Qed.

(** C2, as the code has it. For a queue in [allowed_chars] whose length is
    within bounds [translate_chars] returns the mapped object; [translate]
    yields that object and empties the queue unless it is [None] (or
    [NotImplemented]): a returned [None] reads as "wait for the next
    character", so nothing is yielded and the queue is kept.  In particular,
    for a map built by [charmap] with a skip character of the alphabet,
    [translate] on that character alone yields nothing. *)
Theorem MapTranslation_none_is_pending :
  (∀ (self : MapTranslation) (queue : string) (char : ascii)
     (on_error : pyval),
      (min_chars self ≤ len (queue ++ str1 char) ≤ max_chars self)%Z →
      queue ++ str1 char ∈ allowed_chars self →
      let v := get (map self) (queue ++ str1 char) in
      translate_chars self (queue ++ str1 char) = (Return v, self)
      ∧ (v = PyNone →
         loop_body self queue char on_error
         = Next self (queue ++ str1 char) None)
      ∧ (v ≠ PyNone → v ≠ PyNotImplemented →
         loop_body self queue char on_error = Next self "" (Some v)))
  ∧ (∀ (chars : string) (offset : Z) (skip : ascii) (on_error : pyval),
      skip ∈ chars_of chars →
      let self :=
        MapTranslation_init (charmap chars offset (PyStr (str1 skip))) 1 1 None in
      map self !! str1 skip = Some PyNone
      ∧ translate self (str1 skip) on_error
        = mk_run [] StopIteration self (str1 skip)).
Proof.
  split.
  - intros self queue char on_error Hlen Hin v.
    pose proof (MapTranslation_translate_chars_allowed self _ Hlen Hin) as Htc.
    split; [done|]. rewrite (loop_body_return _ _ _ _ on_error _ Htc). fold v.
    split.
    + intros ->. done.
    + intros Hn Hni. by rewrite !decide_False.
  - intros chars offset skip on_error [n Hn]%list_elem_of_lookup_1 self.
    rewrite <- get_chars_of in Hn.
    assert (Hmap : map self !! str1 skip = Some PyNone)
      by (by apply (charmap_skip chars offset _ n)).
    split; [done|].
    assert (Htc : translate_chars self ("" ++ str1 skip) = (Return PyNone, self)).
    { change ("" ++ str1 skip) with (str1 skip).
      rewrite MapTranslation_translate_chars_allowed.
      - unfold get. by rewrite Hmap.
      - done.
      - apply elem_of_keys. exists PyNone. exact Hmap. }
    unfold translate. simpl translate_loop.
    by rewrite (loop_body_return _ _ _ _ on_error _ Htc).
Qed.

(** The docstring's alphabet with skip character ['*']. *)
Lemma MapTranslation_none_is_pending_witness :
  translate
    (MapTranslation_init (charmap "0*1*2*3*4" 100 (PyStr "*")) 1 1 None)
    "*" PyNone
  = mk_run [] StopIteration
      (MapTranslation_init (charmap "0*1*2*3*4" 100 (PyStr "*")) 1 1 None) "*".
Proof.
  apply (proj2 MapTranslation_none_is_pending "0*1*2*3*4" 100 "*"%char PyNone).
  apply (bool_decide_unpack _). vm_compute. reflexivity.
Defined.

(** C2 as stated fails: the skip character is a key mapped to [None], yet
    [translate] on it yields the empty sequence, not [[None]], and the queue
    still holds the character. *)
Lemma translate_skip_char_yields_nothing :
  let self :=
    MapTranslation_init (charmap "0*1*2*3*4" 100 (PyStr "*")) 1 1 None in
  map self !! "*" = Some PyNone
  ∧ yielded (translate self "*" PyNone) = []
  ∧ yielded (translate self "*" PyNone) ≠ [PyNone]
  ∧ queue_after (translate self "*" PyNone) = "*".
Proof.
  vm_compute. repeat split; discriminate.
Qed.

(** C9 on the code: a key that only the extra map has is in the merged map
    but not in [allowed_chars], which was read off before the merge, so a
    queue equal to it is rejected: it raises [TranslationError] when the key
    is 7-bit, and [UnicodeDecodeError] out of the message formatting when
    the key holds a byte >= 0x80; a key the base map has too gets the extra
    map's value. *)
Theorem MapTranslation_extra_map_only_key_rejected
    (map_ extra : gmap string pyval) (lo hi : Z) (k : string) (v : pyval) :
  extra !! k = Some v → (lo ≤ len k ≤ hi)%Z →
  let self := MapTranslation_init map_ lo hi (Some extra) in
  map self !! k = Some v
  ∧ (map_ !! k = None → ascii_decodable k = true →
     translate_chars self k
     = (Raise (TranslationError (not_in_allowed_chars k)), self))
  ∧ (map_ !! k = None → ascii_decodable k = false →
     translate_chars self k = (Raise UnicodeDecodeError, self))
  ∧ (is_Some (map_ !! k) → translate_chars self k = (Return v, self)).
Proof.
  intros He Hlen self.
  assert (Hmap : map self !! k = Some v).
  { unfold self. by rewrite MapTranslation_init_map, He. }
  assert (Hrej : map_ !! k = None →
            translate_chars self k
            = (Raise (formatted_TranslationError (not_in_allowed_chars k)),
               self)).
  { intros Hbase. apply MapTranslation_translate_chars_unknown; [done|].
    simpl. rewrite elem_of_keys, Hbase. by intros [? ?]. }
  split; [done|]. split; [|split].
  - intros Hbase Hd.
    by rewrite (Hrej Hbase), formatted_TranslationError_ascii.
  - intros Hbase Hd.
    by rewrite (Hrej Hbase), formatted_TranslationError_high.
  - intros Hbase. rewrite MapTranslation_translate_chars_allowed; [|done|].
    + unfold get. by rewrite Hmap.
    + simpl. by apply elem_of_keys.
Qed.

(** [MapTranslation(charmap('0123456789'), extra_map={'x': 10})] on ['x']. *)
Lemma MapTranslation_extra_map_only_key_rejected_witness :
  let self :=
    MapTranslation_init (charmap "0123456789" 0 PyNone) 1 1
      (Some {["x" := PyInt 10]}) in
  map self !! "x" = Some (PyInt 10)
  ∧ translate_chars self "x"
    = (Raise (TranslationError (not_in_allowed_chars "x")), self)
  ∧ yielded (translate self "x" PyNone) = [].
Proof.
  intros self.
  destruct (MapTranslation_extra_map_only_key_rejected
              (charmap "0123456789" 0 PyNone) {["x" := PyInt 10]} 1 1 "x"
              (PyInt 10)) as (Hm & Hrej & _);
    [reflexivity | vm_compute; split; discriminate |].
  split; [exact Hm|]. split; [apply Hrej; reflexivity|].
  vm_compute. reflexivity.
Defined.

(** ** Reading decimal numbers *)

Lemma is_digit_not_space (c : ascii) : is_digit c = true → is_space c = false.
Proof.
  unfold is_digit, is_space. intros [H1 H2]%andb_prop.
  apply Nat.leb_le in H1. apply orb_false_intro.
  - apply Nat.eqb_neq. lia.
  - apply andb_false_intro2. apply Nat.leb_gt. lia.
Qed.

Lemma is_digit_not_sign (c : ascii) :
  is_digit c = true → c ≠ "+"%char ∧ c ≠ "-"%char.
Proof. split; intros ->; discriminate. Qed.

Lemma span_digits_all (s : string) :
  all_chars is_digit s = true → span_digits s = (s, "").
Proof.
  induction s as [|c s IH]; simpl; [done|].
  intros [Hc Hs]%andb_prop. by rewrite Hc, IH.
Qed.

(** On a string [isdigit] accepts, [int] cannot fail and gives the decimal
    value. *)
Lemma int_isdigit (s : string) : isdigit s = true → int s = Some (decimal s).
Proof.
  destruct s as [|c s]; [done|]. simpl. intros [Hc Hs]%andb_prop.
  unfold int. simpl lstrip. rewrite (is_digit_not_space c Hc).
  destruct (is_digit_not_sign c Hc) as [Hp Hm].
  rewrite (decide_False (P := c = "+"%char)) by done.
  rewrite (decide_False (P := c = "-"%char)) by done.
  simpl. rewrite Hc, (span_digits_all s Hs). simpl.
  f_equal. unfold decimal. simpl. lia.
Qed.

Lemma is_digit_7bit (c : ascii) : is_digit c = true → is_7bit c = true.
Proof.
  unfold is_digit, is_7bit. intros [_ H]%andb_prop.
  apply Nat.leb_le in H. apply Nat.ltb_lt. lia.
Qed.

Lemma isdigit_ascii_decodable (s : string) :
  isdigit s = true → ascii_decodable s = true.
Proof.
  destruct s as [|c s]; [done|]. unfold isdigit, ascii_decodable.
  generalize (String c s). clear. intros s.
  induction s as [|c s IH]; simpl; [done|].
  intros [Hc Hs]%andb_prop. by rewrite (is_digit_7bit c Hc), IH.
Qed.

Lemma isdigit_not_caret (c : ascii) (s : string) :
  isdigit (String c s) = true → c ≠ "^"%char.
Proof. intros Hd ->. discriminate. Qed.

(** ** Code128Translation: escapes *)

(** The escape branch on a digit payload, by the payload's value. *)
Lemma escape_digits_by_value (self : Code128Translation)
    (escaped : string) :
  isdigit escaped = true →
  translate_chars self (String "^" escaped) =
  let v := decimal escaped in
  if decide (v < 96)%Z then (Return PyNone, self)
  else if decide (v ≤ 107)%Z then
    (Return (PyInt v), mk_Code128Translation (shifted v (code self)))
  else (Raise (TranslationError (not_allowed_for_escape escaped)), self).
Proof.
  intros Hd. destruct escaped as [|c1 rest]; [done|].
  pose proof (isdigit_not_caret _ _ Hd) as Hc1.
  simpl translate_chars. rewrite decide_False by done.
  change (is_digit c1 && all_chars is_digit rest)
    with (isdigit (String c1 rest)).
  rewrite Hd, (int_isdigit _ Hd). cbv zeta.
  destruct (decide (decimal (String c1 rest) < 96)%Z); [done|].
  unfold in_range.
  destruct (decide (decimal (String c1 rest) ≤ 107)%Z).
  - replace (96 <=? _)%Z with true by (symmetry; apply Z.leb_le; lia).
    by replace (_ <? 108)%Z with true by (symmetry; apply Z.ltb_lt; lia).
  - replace (_ <? 108)%Z with false by (symmetry; apply Z.ltb_ge; lia).
    rewrite andb_false_r.
    by rewrite formatted_TranslationError_ascii
      by (by apply isdigit_ascii_decodable).
Qed.

(** The escape branch on a payload [isdigit] rejects. *)
Lemma escape_payload_rejected (self : Code128Translation)
    (c1 : ascii) (rest : string) :
  c1 ≠ "^"%char → isdigit (String c1 rest) = false →
  translate_chars self (String "^" (String c1 rest))
  = (Raise (formatted_TranslationError
              (not_allowed_for_escape (String c1 rest))), self).
Proof.
  intros Hc1 Hd. simpl translate_chars. rewrite decide_False by done.
  change (is_digit c1 && all_chars is_digit rest)
    with (isdigit (String c1 rest)).
  by rewrite Hd.
Qed.

(** C3, as the code has it. For a queue ['^'] followed by at least one
    character: if the second character is ['^'] the result is 62, whatever
    follows it; otherwise a 7-bit payload [isdigit] rejects raises
    [TranslationError], and a digit payload of value [v] returns [None] for
    [v < 96], returns [v] for [96 <= v <= 107], and raises
    [TranslationError] for [v > 107].  A rejected payload that holds a byte
    >= 0x80 raises [UnicodeDecodeError] while the message is formatted. *)
Theorem Code128Translation_escape (self : Code128Translation)
    (c1 : ascii) (rest : string) :
  let escaped := String c1 rest in
  let res := translate_chars self (String "^" escaped) in
  let v := decimal escaped in
  (c1 = "^"%char → res = (Return (PyInt 62), self))
  ∧ (c1 ≠ "^"%char → isdigit escaped = false →
     ascii_decodable escaped = true →
     res = (Raise (TranslationError (not_allowed_for_escape escaped)), self))
  ∧ (isdigit escaped = true → (v < 96)%Z → res = (Return PyNone, self))
  ∧ (isdigit escaped = true → (96 ≤ v ≤ 107)%Z → res.1 = Return (PyInt v))
  ∧ (isdigit escaped = true → (107 < v)%Z →
     res = (Raise (TranslationError (not_allowed_for_escape escaped)), self))
  ∧ (c1 ≠ "^"%char → ascii_decodable escaped = false →
     res = (Raise UnicodeDecodeError, self)).
Proof.
  intros escaped res v. split; [|split; [|split; [|split; [|split]]]].
  - intros ->. done.
  - intros Hc1 Hd Hascii. unfold res, escaped.
    by rewrite escape_payload_rejected, formatted_TranslationError_ascii.
  - intros Hd Hv. unfold res.
    rewrite (escape_digits_by_value self escaped Hd). cbv zeta. fold v.
    by rewrite decide_True.
  - intros Hd Hv. unfold res.
    rewrite (escape_digits_by_value self escaped Hd). cbv zeta. fold v.
    rewrite decide_False by lia. by rewrite decide_True by lia.
  - intros Hd Hv. unfold res.
    rewrite (escape_digits_by_value self escaped Hd). cbv zeta. fold v.
    rewrite decide_False by lia. by rewrite decide_False by lia.
  - intros Hc1 Hascii. unfold res, escaped.
    assert (Hd : isdigit (String c1 rest) = false).
    { destruct (isdigit (String c1 rest)) eqn:Hd; [|done].
      apply isdigit_ascii_decodable in Hd. fold escaped in Hd. congruence. }
    by rewrite escape_payload_rejected, formatted_TranslationError_high.
Qed.

(** Doctest values: ['^^'], ['^101'], ['^X'], ['^10'], ['^200'], and the
    payload byte 0xe9. *)
Lemma Code128Translation_escape_witness :
  translate_chars Code128Translation_init "^^"
  = (Return (PyInt 62), Code128Translation_init)
  ∧ (translate_chars Code128Translation_init "^101").1 = Return (PyInt 101)
  ∧ translate_chars Code128Translation_init "^X"
    = (Raise (TranslationError (not_allowed_for_escape "X")),
       Code128Translation_init)
  ∧ translate_chars Code128Translation_init "^10"
    = (Return PyNone, Code128Translation_init)
  ∧ translate_chars Code128Translation_init "^200"
    = (Raise (TranslationError (not_allowed_for_escape "200")),
       Code128Translation_init)
  ∧ translate_chars Code128Translation_init (String "^" (str1 (chr 233)))
    = (Raise UnicodeDecodeError, Code128Translation_init).
Proof.
  split; [|split; [|split; [|split; [|split]]]].
  - destruct (Code128Translation_escape Code128Translation_init "^" "")
      as (Hcaret & _). apply Hcaret. reflexivity.
  - destruct (Code128Translation_escape Code128Translation_init "1" "01")
      as (_ & _ & _ & Hin & _).
    apply Hin; [reflexivity | vm_compute; split; discriminate].
  - destruct (Code128Translation_escape Code128Translation_init "X" "")
      as (_ & Hbad & _). apply Hbad; [discriminate | reflexivity..].
  - destruct (Code128Translation_escape Code128Translation_init "1" "0")
      as (_ & _ & Hlow & _). apply Hlow; reflexivity.
  - destruct (Code128Translation_escape Code128Translation_init "2" "00")
      as (_ & _ & _ & _ & Hhigh & _). apply Hhigh; reflexivity.
  - destruct (Code128Translation_escape Code128Translation_init (chr 233) "")
      as (_ & _ & _ & _ & _ & Hbyte). apply Hbyte; [discriminate | reflexivity].
Defined.

(** C3 as stated fails on a queue that starts with ['^^'] and goes on: it is
    not the exact queue ['^^'] and its payload ['^5'] is not all digits, yet
    the result is 62 and no error is raised. *)
Lemma Code128Translation_caret_caret_prefix :
  (2 ≤ len "^^5")%Z ∧ "^^5" ≠ "^^" ∧ isdigit "^5" = false
  ∧ translate_chars Code128Translation_init "^^5"
    = (Return (PyInt 62), Code128Translation_init)
  ∧ ∀ msg, (translate_chars Code128Translation_init "^^5").1
           ≠ Raise (TranslationError msg).
Proof.
  repeat split; discriminate.
Qed.

(** ** Code128Translation: the mode *)

(** Either the instance is returned as it was, or the queue is an in-range
    digit escape and the mode is the one [shifted] gives. *)
Lemma Code128Translation_translate_chars_frame (self : Code128Translation)
    (chars : string) :
  (translate_chars self chars).2 = self
  ∨ ∃ escaped : string,
      chars = String "^" escaped ∧ isdigit escaped = true
      ∧ (96 ≤ decimal escaped ≤ 107)%Z
      ∧ translate_chars self chars
        = (Return (PyInt (decimal escaped)),
           mk_Code128Translation (shifted (decimal escaped) (code self))).
Proof.
  destruct chars as [|c0 rest]; [by left|].
  destruct (decide (c0 = "^"%char)) as [->|Hc0].
  - destruct (isdigit rest) eqn:Hd.
    + rewrite (escape_digits_by_value self rest Hd). cbv zeta.
      destruct (decide (decimal rest < 96)%Z); [by left|].
      destruct (decide (decimal rest ≤ 107)%Z); [|by left].
      right. exists rest. split; [done|]. split; [done|]. split; [lia|].
      reflexivity.
    + left. destruct rest as [|c1 rest]; [done|].
      destruct (decide (c1 = "^"%char)) as [->|Hc1]; [done|].
      by rewrite escape_payload_rejected.
  - left. simpl. rewrite decide_False by done.
    destruct self as [[[]|]]; simpl.
    + by destruct (index CODE_A_TABLE c0).
    + by destruct (index CODE_B_TABLE c0).
    + destruct (decide (len (String c0 rest) = 2)); [|done].
      by destruct (int (String c0 rest)).
    + done.
Qed.

Lemma shifted_cases (v : Z) (code0 : option codeset) :
  ((v = 99 ∨ v = 105) → shifted v code0 = Some code_C)
  ∧ ((v = 100 ∨ v = 104) → shifted v code0 = Some code_B)
  ∧ ((v = 101 ∨ v = 103) → shifted v code0 = Some code_A)
  ∧ (v ≠ 99 → v ≠ 105 → v ≠ 100 → v ≠ 104 → v ≠ 101 → v ≠ 103 →
     shifted v code0 = code0).
Proof.
  unfold shifted. repeat split; intros; repeat case_decide; (done || lia).
Qed.

(** C4. [translate_chars] changes [self.code] only when the queue is a digit
    escape that resolves to 99 or 105 (then ['C']), 100 or 104 (then ['B']),
    101 or 103 (then ['A']).  The escapes 96-98, 102, 106 and 107 resolve
    and leave it alone, and so do ['^^'], every queue that does not start
    with ['^'] (table lookups, digit pairs), every [None] return and every
    exception. *)
Theorem Code128Translation_code_frame (self : Code128Translation)
    (chars : string) :
  let res := translate_chars self chars in
  (code res.2 ≠ code self →
   ∃ escaped : string,
     chars = String "^" escaped ∧ isdigit escaped = true
     ∧ res.1 = Return (PyInt (decimal escaped))
     ∧ (((decimal escaped = 99 ∨ decimal escaped = 105)
         ∧ code res.2 = Some code_C)
        ∨ ((decimal escaped = 100 ∨ decimal escaped = 104)
           ∧ code res.2 = Some code_B)
        ∨ ((decimal escaped = 101 ∨ decimal escaped = 103)
           ∧ code res.2 = Some code_A)))
  ∧ (∀ escaped : string,
       chars = String "^" escaped → isdigit escaped = true →
       let v := decimal escaped in
       ((v = 99 ∨ v = 105) →
        res = (Return (PyInt v), mk_Code128Translation (Some code_C)))
       ∧ ((v = 100 ∨ v = 104) →
          res = (Return (PyInt v), mk_Code128Translation (Some code_B)))
       ∧ ((v = 101 ∨ v = 103) →
          res = (Return (PyInt v), mk_Code128Translation (Some code_A)))
       ∧ ((96 ≤ v ≤ 98)%Z ∨ v = 102 ∨ v = 106 ∨ v = 107 →
          res = (Return (PyInt v), self)))
  ∧ (∀ rest : string, chars = String "^" (String "^" rest) →
       res = (Return (PyInt 62), self))
  ∧ (∀ (c0 : ascii) (rest : string),
       chars = String c0 rest → c0 ≠ "^"%char → res.2 = self)
  ∧ (res.1 = Return PyNone → res.2 = self)
  ∧ (∀ e : exn, res.1 = Raise e → res.2 = self).
Proof.
  intros res. unfold res.
  destruct (Code128Translation_translate_chars_frame self chars)
    as [Hsame|(escaped & -> & Hd & Hv & Heq)].
  - split; [by rewrite Hsame|]. split; [|split; [|split; [|split]]]; try done.
    + intros escaped -> Hd.
      rewrite (escape_digits_by_value self escaped Hd) in Hsame |- *.
      cbv zeta in *. set (v := decimal escaped) in *.
      destruct (shifted_cases v (code self)) as (HC & HB & HA & Hid).
      destruct (decide (v < 96)%Z);
        [repeat split; intros; lia|].
      destruct (decide (v ≤ 107)%Z); [|repeat split; intros; lia].
      simpl in Hsame. destruct self as [code0]. simpl in *.
      injection Hsame as Hsame.
      repeat split; intros Hcase; f_equal.
      * by rewrite (HC Hcase).
      * by rewrite (HB Hcase).
      * by rewrite (HA Hcase).
      * by rewrite Hsame.
    + by intros rest ->.
  - rewrite Heq. simpl.
    destruct (shifted_cases (decimal escaped) (code self)) as (HC & HB & HA & Hid).
    split; [|split; [|split; [|split; [|split]]]].
    + intros Hne. exists escaped. repeat split; [done|].
      destruct (decide (decimal escaped = 99 ∨ decimal escaped = 105)) as [H1|H1];
        [left; by rewrite HC|].
      destruct (decide (decimal escaped = 100 ∨ decimal escaped = 104)) as [H2|H2];
        [right; left; by rewrite HB|].
      destruct (decide (decimal escaped = 101 ∨ decimal escaped = 103)) as [H3|H3];
        [right; right; by rewrite HA|].
      destruct Hne. apply Hid; lia.
    + intros escaped' [= <-] _. cbv zeta.
      repeat split; intros Hcase.
      * by rewrite HC.
      * by rewrite HB.
      * by rewrite HA.
      * rewrite Hid by lia. by destruct self.
    + intros rest [= ->]. discriminate.
    + intros c0 rest [= <- _] Hc0. done.
    + discriminate.
    + discriminate.
Qed.

(** The docstring's mode shifts ['^101'], ['^104'], ['^99'], and ['^102']
    met in mode C. *)
Lemma Code128Translation_code_frame_witness :
  translate_chars Code128Translation_init "^101"
  = (Return (PyInt 101), mk_Code128Translation (Some code_A))
  ∧ translate_chars (mk_Code128Translation (Some code_A)) "^104"
    = (Return (PyInt 104), mk_Code128Translation (Some code_B))
  ∧ translate_chars (mk_Code128Translation (Some code_B)) "^99"
    = (Return (PyInt 99), mk_Code128Translation (Some code_C))
  ∧ translate_chars (mk_Code128Translation (Some code_C)) "^102"
    = (Return (PyInt 102), mk_Code128Translation (Some code_C))
  ∧ (translate_chars (mk_Code128Translation (Some code_B)) "Z").2
    = mk_Code128Translation (Some code_B).
Proof.
  split; [|split; [|split; [|split]]].
  - destruct (Code128Translation_code_frame Code128Translation_init "^101")
      as (_ & Hshift & _).
    destruct (Hshift "101") as (_ & _ & HA & _); [reflexivity..|].
    apply HA. by left.
  - destruct (Code128Translation_code_frame
                (mk_Code128Translation (Some code_A)) "^104")
      as (_ & Hshift & _).
    destruct (Hshift "104") as (_ & HB & _); [reflexivity..|].
    apply HB. by right.
  - destruct (Code128Translation_code_frame
                (mk_Code128Translation (Some code_B)) "^99")
      as (_ & Hshift & _).
    destruct (Hshift "99") as (HC & _); [reflexivity..|].
    apply HC. by left.
  - destruct (Code128Translation_code_frame
                (mk_Code128Translation (Some code_C)) "^102")
      as (_ & Hshift & _).
    destruct (Hshift "102") as (_ & _ & _ & Hid); [reflexivity..|].
    apply Hid. right. by left.
  - destruct (Code128Translation_code_frame
                (mk_Code128Translation (Some code_B)) "Z")
      as (_ & _ & _ & Hplain & _).
    apply (Hplain "Z"%char ""); [reflexivity | discriminate].
Defined.

(** ** Code128Translation: plain characters *)

Lemma append_cons (d : ascii) (q s : string) :
  String d q ++ s = String d (q ++ s).
Proof. reflexivity. Qed.

Lemma append_empty_r (q : string) : q ++ "" = q.
Proof.
  induction q as [|d q IH]; [done|]. by rewrite append_cons, IH.
Qed.

Lemma append_str1 (q : string) (c : ascii) (s : string) :
  (q ++ str1 c) ++ s = q ++ String c s.
Proof.
  induction q as [|d q IH]; [done|]. by rewrite !append_cons, IH.
Qed.

(** In mode A or B a queue that does not start with ['^'] is looked up by
    its first character. *)
Lemma Code128Translation_translate_chars_table (cs : codeset)
    (code_table : string) (c0 : ascii) (rest : string) :
  c0 ≠ "^"%char → CODE_TABLES cs = Some code_table →
  translate_chars (mk_Code128Translation (Some cs)) (String c0 rest) =
  match index code_table c0 with
  | Some ordinal => (Return (PyInt ordinal), mk_Code128Translation (Some cs))
  | None => (Raise ValueError, mk_Code128Translation (Some cs))
  end.
Proof.
  intros Hc0 Htab. simpl. rewrite decide_False by done.
  destruct cs; simpl in Htab; [| |done]; by injection Htab as <-.
Qed.

(** C1 on the code. In mode A or B, for a first character other than ['^']:
    when the table holds it, [translate_chars] returns its position; when it
    does not, [str.index] raises [ValueError], which the [except IndexError]
    clause does not catch and which is not a [TranslationError], so the pass
    of [translate] ends with [ValueError] whatever [on_error] is. *)
Theorem Code128Translation_table_miss_escapes (cs : codeset)
    (code_table : string) (c0 : ascii) (on_error : pyval) :
  c0 ≠ "^"%char → CODE_TABLES cs = Some code_table →
  let self := mk_Code128Translation (Some cs) in
  (∀ ordinal : Z, index code_table c0 = Some ordinal →
     translate_chars self (str1 c0) = (Return (PyInt ordinal), self)
     ∧ loop_body self "" c0 on_error = Next self "" (Some (PyInt ordinal)))
  ∧ (index code_table c0 = None →
     translate_chars self (str1 c0) = (Raise ValueError, self)
     ∧ loop_body self "" c0 on_error = Halt self (str1 c0) ValueError).
Proof.
  intros Hc0 Htab self.
  pose proof (Code128Translation_translate_chars_table cs code_table c0 ""
                Hc0 Htab) as Htc. fold self in Htc.
  split.
  - intros ordinal Hi. rewrite Hi in Htc. split; [done|].
    by rewrite (loop_body_return self self "" c0 on_error _ Htc).
  - intros Hi. rewrite Hi in Htc. split; [done|].
    by apply (loop_body_other_exception self self "" c0 on_error _ Htc).
Qed.

(** ['^103a'] with [IGNORE_ON_ERROR]: ['a'] is not in table A. *)
Lemma Code128Translation_table_miss_escapes_witness :
  loop_body (mk_Code128Translation (Some code_A)) "" "a" IGNORE_ON_ERROR
  = Halt (mk_Code128Translation (Some code_A)) "a" ValueError
  ∧ code128 "^103a" IGNORE_ON_ERROR
    = mk_run [PyInt 103] (Raised ValueError)
        (mk_Code128Translation (Some code_A)) "a"
  ∧ code128 "^103a" (PyStr "#")
    = mk_run [PyInt 103] (Raised ValueError)
        (mk_Code128Translation (Some code_A)) "a".
Proof.
  split; [|split; vm_compute; reflexivity].
  apply (Code128Translation_table_miss_escapes code_A CODE_A_TABLE "a"
           IGNORE_ON_ERROR); [discriminate | reflexivity | reflexivity].
Defined.

(** A returned [None] keeps the queue and yields nothing. *)
Lemma loop_body_none {T : Type} `{Translator T} (self self' : T)
    (queue : string) (char : ascii) (on_error : pyval) :
  translate_chars self (queue ++ str1 char) = (Return PyNone, self') →
  loop_body self queue char on_error = Next self' (queue ++ str1 char) None.
Proof. intros Htc. unfold loop_body. by rewrite Htc. Qed.

Lemma translate_loop_cons {T : Type} `{Translator T} (self : T)
    (queue : string) (char : ascii) (rest : string) (on_error : pyval) :
  translate_loop self queue (String char rest) on_error =
  match loop_body self queue char on_error with
  | Next self' queue' out => emit out (translate_loop self' queue' rest on_error)
  | Halt self' queue' e => mk_run [] (Raised e) self' queue'
  end.
Proof. reflexivity. Qed.

(** With no mode selected a queue that does not start with ['^'] gets
    [None] back, however long it is. *)
Lemma Code128Translation_translate_chars_no_code (c0 : ascii) (rest : string) :
  c0 ≠ "^"%char →
  translate_chars Code128Translation_init (String c0 rest)
  = (Return PyNone, Code128Translation_init).
Proof. intros Hc0. simpl. by rewrite decide_False. Qed.

Lemma translate_loop_no_code (c0 : ascii) (queue message : string)
    (on_error : pyval) :
  c0 ≠ "^"%char →
  translate_loop Code128Translation_init (String c0 queue) message on_error
  = mk_run [] StopIteration Code128Translation_init
      (String c0 queue ++ message).
Proof.
  intros Hc0. revert queue.
  induction message as [|char rest IH]; intros queue.
  - simpl. by rewrite append_cons, append_empty_r.
  - rewrite translate_loop_cons.
    pose proof (Code128Translation_translate_chars_no_code c0
                  (queue ++ str1 char) Hc0) as Htc.
    change (String c0 (queue ++ str1 char))
      with (String c0 queue ++ str1 char) in Htc.
    rewrite (loop_body_none _ _ _ _ on_error Htc). simpl emit.
    change (String c0 queue ++ str1 char)
      with (String c0 (queue ++ str1 char)).
    rewrite IH. by rewrite !append_cons, append_str1.
Qed.

(** C5, as the code has it. With [self.code] still [None], a queue whose
    first character is not ['^'] makes [translate_chars] return [None]: no
    error is raised, the queue is kept and grows, and [translate] on a
    message that starts with such a character yields nothing and ends
    normally, whatever [on_error] is. *)
Theorem Code128Translation_no_code_waits (c0 : ascii) (rest : string)
    (on_error : pyval) :
  c0 ≠ "^"%char →
  translate_chars Code128Translation_init (String c0 rest)
  = (Return PyNone, Code128Translation_init)
  ∧ code128 (String c0 rest) on_error
    = mk_run [] StopIteration Code128Translation_init (String c0 rest).
Proof.
  intros Hc0. split.
  - by apply Code128Translation_translate_chars_no_code.
  - unfold code128, translate.
    change (reset Code128Translation_init) with Code128Translation_init.
    rewrite translate_loop_cons.
    pose proof (Code128Translation_translate_chars_no_code c0 "" Hc0) as Htc.
    change (String c0 "") with ("" ++ str1 c0) in Htc.
    rewrite (loop_body_none _ _ _ _ on_error Htc). simpl emit.
    change ("" ++ str1 c0) with (String c0 "").
    by rewrite translate_loop_no_code.
Qed.

(** ['AZ^103A'] without a leading mode escape, under [RAISE_ON_ERROR]. *)
Lemma Code128Translation_no_code_waits_witness :
  code128 "AZ^103A" RAISE_ON_ERROR
  = mk_run [] StopIteration Code128Translation_init "AZ^103A".
Proof.
  apply (Code128Translation_no_code_waits "A" "Z^103A" RAISE_ON_ERROR).
  discriminate.
Defined.

(** C5 as stated fails: with no mode selected, ['a'] raises nothing, also
    under [RAISE_ON_ERROR]. *)
Lemma Code128Translation_no_code_no_error :
  code Code128Translation_init = None
  ∧ translate_chars Code128Translation_init "a"
    = (Return PyNone, Code128Translation_init)
  ∧ (∀ e, (translate_chars Code128Translation_init "a").1 ≠ Raise e)
  ∧ code128 "a" RAISE_ON_ERROR
    = mk_run [] StopIteration Code128Translation_init "a"
  ∧ (∀ e, stop (code128 "a" RAISE_ON_ERROR) ≠ Raised e).
Proof.
  repeat split; discriminate.
Qed.

(** ** Code128Translation: digit pairs in mode C *)

Lemma ascii_enumerated (c : ascii) :
  In c (List.map ascii_of_nat (seq 0 256)).
Proof.
  rewrite <- (ascii_nat_embedding c). apply in_map, in_seq.
  pose proof (nat_ascii_bounded c). lia.
Qed.

(** Which two-character strings [int] accepts, checked on all of them. *)
Lemma int_two_chars (c0 c1 : ascii) :
  bool_decide (is_Some (int (String c0 (str1 c1)))) =
  (is_digit c0 || is_space c0 || (c0 =? "+")%char || (c0 =? "-")%char)
  && is_digit c1
  || is_digit c0 && is_space c1.
Proof.
  assert (Htable :
    forallb (λ a, forallb (λ b,
      Bool.eqb (bool_decide (is_Some (int (String a (str1 b)))))
        ((is_digit a || is_space a || (a =? "+")%char || (a =? "-")%char)
         && is_digit b
         || is_digit a && is_space b))
      (List.map ascii_of_nat (seq 0 256)))
      (List.map ascii_of_nat (seq 0 256)) = true)
    by (vm_compute; reflexivity).
  rewrite forallb_forall in Htable.
  specialize (Htable c0 (ascii_enumerated c0)).
  rewrite forallb_forall in Htable.
  specialize (Htable c1 (ascii_enumerated c1)).
  by apply Bool.eqb_prop.
Qed.

(** C10, as the code has it. In mode C a two-character queue that does not
    start with ['^'] goes to [int(..., 10)].  [int] accepts two digits, and
    also a digit after a sign or after a whitespace character, and a digit
    before a whitespace character: those queues resolve.  For every other
    queue [int] raises [ValueError], which is not a [TranslationError], so
    the pass of [translate] ends with it whatever [on_error] is. *)
Theorem Code128Translation_digit_pair (c0 c1 : ascii) (on_error : pyval) :
  c0 ≠ "^"%char →
  let self := mk_Code128Translation (Some code_C) in
  let queue := String c0 (str1 c1) in
  (is_Some (int queue) ↔
   (is_digit c0 || is_space c0 || (c0 =? "+")%char || (c0 =? "-")%char)
   && is_digit c1
   || is_digit c0 && is_space c1 = true)
  ∧ (∀ ordinal : Z, int queue = Some ordinal →
       translate_chars self queue = (Return (PyInt ordinal), self)
       ∧ loop_body self (str1 c0) c1 on_error
         = Next self "" (Some (PyInt ordinal)))
  ∧ (int queue = None →
     translate_chars self queue = (Raise ValueError, self)
     ∧ loop_body self (str1 c0) c1 on_error = Halt self queue ValueError)
  ∧ (is_digit c0 = true → is_digit c1 = true →
     int queue = Some (10 * digit_value c0 + digit_value c1)).
Proof.
  intros Hc0 self queue.
  assert (Htc : translate_chars self (str1 c0 ++ str1 c1) =
                match int queue with
                | Some ordinal => (Return (PyInt ordinal), self)
                | None => (Raise ValueError, self)
                end).
  { change (str1 c0 ++ str1 c1) with queue. simpl.
    by rewrite decide_False by done. }
  split; [|split; [|split]].
  - rewrite <- int_two_chars. symmetry. apply bool_decide_eq_true.
  - intros ordinal Hint. rewrite Hint in Htc. split; [exact Htc|].
    by rewrite (loop_body_return self self _ c1 on_error _ Htc).
  - intros Hint. rewrite Hint in Htc. split; [exact Htc|].
    by apply (loop_body_other_exception self self _ c1 on_error _ Htc).
  - intros Hd0 Hd1. apply (int_isdigit queue). simpl. by rewrite Hd0, Hd1.
Qed.

(** ['^1051x'] with [IGNORE_ON_ERROR]: the pair ['1x'] ends the run. *)
Lemma Code128Translation_digit_pair_witness :
  loop_body (mk_Code128Translation (Some code_C)) "1" "x" IGNORE_ON_ERROR
  = Halt (mk_Code128Translation (Some code_C)) "1x" ValueError
  ∧ code128 "^1051x" IGNORE_ON_ERROR
    = mk_run [PyInt 105] (Raised ValueError)
        (mk_Code128Translation (Some code_C)) "1x"
  ∧ code128 "^1051x" (PyStr "#")
    = mk_run [PyInt 105] (Raised ValueError)
        (mk_Code128Translation (Some code_C)) "1x".
Proof.
  split; [|split; vm_compute; reflexivity].
  destruct (Code128Translation_digit_pair "1" "x" IGNORE_ON_ERROR)
    as (_ & _ & Hbad & _); [discriminate|].
  apply Hbad. reflexivity.
Defined.

(** C10 as stated fails: in mode C the queue ['+5'] is not two decimal
    digits, yet [int] accepts it and the queue resolves to 5 without any
    exception. *)
Lemma Code128Translation_signed_digit_resolves :
  is_digit "+" = false
  ∧ translate_chars (mk_Code128Translation (Some code_C)) "+5"
    = (Return (PyInt 5), mk_Code128Translation (Some code_C))
  ∧ code128 "^105+5" RAISE_ON_ERROR
    = mk_run [PyInt 105; PyInt 5] StopIteration
        (mk_Code128Translation (Some code_C)) ""
  ∧ (∀ e, stop (code128 "^105+5" IGNORE_ON_ERROR) ≠ Raised e).
Proof.
  repeat split; discriminate.
Qed.

(** * Further properties *)

(** ** Checking a property on every byte *)

Lemma ascii_forall (P : ascii → bool) :
  forallb P (List.map ascii_of_nat (seq 0 256)) = true → ∀ c, P c = true.
Proof.
  intros Hall c. rewrite forallb_forall in Hall. apply Hall, ascii_enumerated.
Qed.

(** ** charmap: the keys *)

Lemma rindex_from_Some_elem (s : string) (i : Z) (c : ascii) :
  is_Some (rindex_from i c s) ↔ c ∈ chars_of s.
Proof.
  split.
  - intros Hsome. destruct (decide (c ∈ chars_of s)) as [|Hnot]; [done|].
    rewrite rindex_from_absent in Hsome; [by destruct Hsome|].
    intros m Hm. rewrite get_chars_of in Hm.
    apply Hnot. by eapply list_elem_of_lookup_2.
  - intros [n Hn]%list_elem_of_lookup_1. rewrite <- get_chars_of in Hn.
    by eapply rindex_from_present.
Qed.

(** The dict [charmap] builds has an entry exactly for the one-character
    strings of the characters of the alphabet: the empty string, longer
    strings and characters outside the alphabet are missing keys. *)
Theorem charmap_keys (chars : string) (offset : Z) (skip_char : pyval)
    (k : string) :
  is_Some (charmap chars offset skip_char !! k)
  ↔ ∃ c : ascii, k = str1 c ∧ c ∈ chars_of chars.
Proof.
  split.
  - intros Hsome.
    destruct k as [|c [|d k]].
    + unfold charmap in Hsome. rewrite charmap_from_keys in Hsome.
      * rewrite lookup_empty in Hsome. by destruct Hsome.
      * intros c. discriminate.
    + exists c. split; [done|]. apply (rindex_from_Some_elem chars 0 c).
      change (String c "") with (str1 c) in Hsome.
      rewrite charmap_lookup in Hsome. unfold rindex in Hsome.
      destruct (rindex_from 0 c chars); [eauto|by destruct Hsome].
    + unfold charmap in Hsome. rewrite charmap_from_keys in Hsome.
      * rewrite lookup_empty in Hsome. by destruct Hsome.
      * intros c'. discriminate.
  - intros (c & -> & Hc). rewrite charmap_lookup. unfold rindex.
    apply (rindex_from_Some_elem chars 0 c) in Hc. destruct Hc as [j ->]. eauto.
Qed.

(** Without a skip character every value of the dict is an integer. *)
Lemma charmap_no_skip_values (chars : string) (offset : Z) (k : string)
    (v : pyval) :
  charmap chars offset PyNone !! k = Some v → ∃ n : Z, v = PyInt n.
Proof.
  intros Hk.
  destruct (proj1 (charmap_keys chars offset PyNone k)) as (c & -> & Hc);
    [eauto|].
  rewrite charmap_lookup in Hk.
  destruct (rindex chars c) as [j|]; [|done].
  rewrite decide_True in Hk by done. injection Hk as <-. eauto.
Qed.

(** ** The generator: what every run satisfies *)

Section Runs.
Context {T : Type} `{Translator T}.

Lemma yielded_emit (out : option pyval) (r : run T) :
  (length (yielded (emit out r)) ≤ S (length (yielded r)))%nat.
Proof. destruct out; simpl; lia. Qed.

(** [translate] yields at most one object per character of the message,
    for every translation class, queue and [on_error]. *)
Theorem translate_loop_yields_at_most_length (self : T) (queue message : string)
    (on_error : pyval) :
  (length (yielded (translate_loop self queue message on_error))
   ≤ String.length message)%nat.
Proof.
  revert self queue. induction message as [|char rest IH]; intros self queue.
  - simpl. lia.
  - rewrite translate_loop_cons.
    destruct (loop_body self queue char on_error) as [self' queue' out|self' queue' e].
    + pose proof (yielded_emit out (translate_loop self' queue' rest on_error)).
      specialize (IH self' queue'). simpl String.length. lia.
    + simpl. lia.
Qed.

Lemma stop_emit (out : option pyval) (r : run T) : stop (emit out r) = stop r.
Proof. by destruct out. Qed.

Lemma self_after_emit (out : option pyval) (r : run T) :
  self_after (emit out r) = self_after r.
Proof. by destruct out. Qed.

Lemma queue_after_emit (out : option pyval) (r : run T) :
  queue_after (emit out r) = queue_after r.
Proof. by destruct out. Qed.
End Runs.

(** ** MapTranslation: whole runs *)

Lemma all_chars_app (p : ascii → bool) (a b : string) :
  all_chars p (a ++ b) = all_chars p a && all_chars p b.
Proof.
  induction a as [|c a IH]; [done|].
  rewrite append_cons. simpl. by rewrite IH, andb_assoc.
Qed.

Lemma ascii_decodable_snoc (queue : string) (c : ascii) (rest : string) :
  ascii_decodable queue = true → ascii_decodable (String c rest) = true →
  ascii_decodable (queue ++ str1 c) = true ∧ ascii_decodable rest = true.
Proof.
  unfold ascii_decodable. rewrite all_chars_app. simpl.
  intros -> [-> ->]%andb_prop. done.
Qed.

(** [translate_chars] of a [MapTranslation] never changes the instance and
    either returns [None], returns the mapped object, or raises what the
    formatting of an error message about the queue gives. *)
Lemma MapTranslation_translate_chars_cases (self : MapTranslation)
    (chars : string) :
  translate_chars self chars = (Return PyNone, self)
  ∨ (chars ∈ allowed_chars self
     ∧ translate_chars self chars = (Return (get (map self) chars), self))
  ∨ ∃ msg, message_argument msg = chars
           ∧ translate_chars self chars
             = (Raise (formatted_TranslationError msg), self).
Proof.
  simpl. unfold MapTranslation_translate_chars.
  destruct (decide (len chars < min_chars self)%Z); [by left|].
  destruct (decide (len chars > max_chars self)%Z);
    [right; right; by exists (unable_to_translate chars)|].
  destruct (decide (chars ∉ allowed_chars self)) as [|Hin];
    [right; right; by exists (not_in_allowed_chars chars)|].
  right. left. split; [|done].
  by destruct (decide (chars ∈ allowed_chars self)).
Qed.

(** A [MapTranslation] whose allowed keys are never mapped to
    [NotImplemented], run with an [on_error] other than [RAISE_ON_ERROR]:
    the only exception a run can end with is the [UnicodeDecodeError] of
    formatting an error message about a queue with a byte >= 0x80, and the
    instance is left as it was.  When the queue and the message hold 7-bit
    bytes only, the run ends normally. *)
Theorem MapTranslation_translate_never_raises (self : MapTranslation)
    (queue message : string) (on_error : pyval) :
  (∀ k, k ∈ allowed_chars self → get (map self) k ≠ PyNotImplemented) →
  on_error ≠ RAISE_ON_ERROR →
  (stop (translate_loop self queue message on_error) = StopIteration
   ∨ stop (translate_loop self queue message on_error)
     = Raised UnicodeDecodeError)
  ∧ self_after (translate_loop self queue message on_error) = self
  ∧ (ascii_decodable queue = true → ascii_decodable message = true →
     stop (translate_loop self queue message on_error) = StopIteration).
Proof.
  intros Hval Hpol. revert queue.
  induction message as [|char rest IH]; intros queue.
  { split; [by left|done]. }
  assert (Hnext : ∀ out queue',
    (ascii_decodable queue = true →
     ascii_decodable (String char rest) = true →
     ascii_decodable queue' = true) →
    let r := emit out (translate_loop self queue' rest on_error) in
    (stop r = StopIteration ∨ stop r = Raised UnicodeDecodeError)
    ∧ self_after r = self
    ∧ (ascii_decodable queue = true →
       ascii_decodable (String char rest) = true → stop r = StopIteration)).
  { intros out queue' Hq r. unfold r. rewrite stop_emit, self_after_emit.
    destruct (IH queue') as (Hstop & Hself & Hascii).
    split; [done|]. split; [done|]. intros Hqa Hma.
    apply Hascii; [by apply Hq|].
    by destruct (ascii_decodable_snoc queue char rest Hqa Hma). }
  assert (Hgrown : ascii_decodable queue = true →
                   ascii_decodable (String char rest) = true →
                   ascii_decodable (queue ++ str1 char) = true).
  { intros Hqa Hma. by destruct (ascii_decodable_snoc queue char rest Hqa Hma). }
  rewrite translate_loop_cons.
  destruct (MapTranslation_translate_chars_cases self (queue ++ str1 char))
    as [Htc|[[Hin Htc]|(msg & Harg & Htc)]].
  - rewrite (loop_body_none _ _ _ _ on_error Htc). by apply Hnext.
  - rewrite (loop_body_return _ _ _ _ on_error _ Htc).
    destruct (decide (get (map self) (queue ++ str1 char) = PyNone)).
    { by apply Hnext. }
    rewrite decide_False by (by apply Hval). by apply Hnext.
  - destruct (ascii_decodable (message_argument msg)) eqn:Hd.
    + rewrite formatted_TranslationError_ascii in Htc by done.
      rewrite (loop_body_translation_error _ _ _ _ on_error _ Htc).
      rewrite decide_False by done.
      destruct (decide (on_error = IGNORE_ON_ERROR ∨ on_error = PyNone));
        by apply Hnext.
    + rewrite formatted_TranslationError_high in Htc by done.
      rewrite (loop_body_other_exception _ _ _ _ on_error _ Htc) by done.
      split; [by right|]. split; [done|]. intros Hqa Hma.
      rewrite Harg, (Hgrown Hqa Hma) in Hd. discriminate.
Qed.

(** The docstring's [cmt] on a message with unknown characters, replaced by
    ['#']. *)
Lemma MapTranslation_translate_never_raises_witness :
  stop (translate_loop cmt "" "12x4y" (PyStr "#")) = StopIteration
  ∧ self_after (translate_loop cmt "" "12x4y" (PyStr "#")) = cmt.
Proof.
  destruct (MapTranslation_translate_never_raises cmt "" "12x4y" (PyStr "#"))
    as (_ & Hself & Hstop); [|discriminate|].
  - intros k Hk. apply elem_of_keys in Hk. destruct Hk as [v Hv].
    destruct (charmap_no_skip_values _ _ _ _ Hv) as [n ->].
    unfold get. change (map cmt) with (charmap "+0123456789" 0 PyNone).
    by rewrite Hv.
  - split; [|exact Hself]. apply Hstop; reflexivity.
Defined.

(** ** MapTranslation with one-character units *)

Section UnitMap.
Variable m : gmap string pyval.
Hypothesis m_values :
  ∀ k v, m !! k = Some v → v ≠ PyNone ∧ v ≠ PyNotImplemented.

Let self : MapTranslation := MapTranslation_init m 1 1 None.

(** What formatting the message about one unknown character gives. *)
Lemma formatted_not_in_allowed_chars (c : ascii) :
  formatted_TranslationError (not_in_allowed_chars (str1 c))
  = if is_7bit c then TranslationError (not_in_allowed_chars (str1 c))
    else UnicodeDecodeError.
Proof.
  unfold formatted_TranslationError, ascii_decodable. simpl.
  by rewrite andb_true_r.
Qed.

(** One pass from an empty queue: a known character is yielded as its
    mapped object, an unknown one raises what formatting the message about
    it gives. *)
Lemma unit_map_translate_chars (c : ascii) :
  translate_chars self ("" ++ str1 c) =
  match m !! str1 c with
  | Some v => (Return v, self)
  | None =>
      (Raise (if is_7bit c then TranslationError (not_in_allowed_chars (str1 c))
              else UnicodeDecodeError), self)
  end.
Proof.
  change ("" ++ str1 c) with (str1 c).
  destruct (m !! str1 c) as [v|] eqn:Hc.
  - rewrite MapTranslation_translate_chars_allowed.
    + unfold get. simpl. by rewrite Hc.
    + done.
    + apply elem_of_keys. eauto.
  - rewrite <- formatted_not_in_allowed_chars.
    apply MapTranslation_translate_chars_unknown; [done|].
    simpl. rewrite elem_of_keys, Hc. by intros [? ?].
Qed.

Lemma unit_map_loop_body_known (c : ascii) (v on_error : pyval) :
  m !! str1 c = Some v → loop_body self "" c on_error = Next self "" (Some v).
Proof.
  intros Hc. pose proof (unit_map_translate_chars c) as Htc. rewrite Hc in Htc.
  rewrite (loop_body_return _ _ _ _ on_error _ Htc).
  destruct (m_values _ _ Hc) as [Hn Hni]. by rewrite !decide_False.
Qed.

Lemma unit_map_loop_body_unknown (c : ascii) (on_error : pyval) :
  m !! str1 c = None → is_7bit c = true →
  loop_body self "" c on_error =
  if decide (on_error = RAISE_ON_ERROR) then
    Halt self (str1 c) (TranslationError (not_in_allowed_chars (str1 c)))
  else if decide (on_error = IGNORE_ON_ERROR ∨ on_error = PyNone) then
    Next self "" None
  else Next self "" (Some on_error).
Proof.
  intros Hc H7. pose proof (unit_map_translate_chars c) as Htc.
  rewrite Hc, H7 in Htc.
  by rewrite (loop_body_translation_error _ _ _ _ on_error _ Htc).
Qed.

(** An unknown byte >= 0x80 ends the run, whatever [on_error] is. *)
Lemma unit_map_loop_body_high (c : ascii) (on_error : pyval) :
  m !! str1 c = None → is_7bit c = false →
  loop_body self "" c on_error = Halt self (str1 c) UnicodeDecodeError.
Proof.
  intros Hc H7. pose proof (unit_map_translate_chars c) as Htc.
  rewrite Hc, H7 in Htc.
  by rewrite (loop_body_other_exception _ _ _ _ on_error _ Htc).
Qed.

(** With [IGNORE_ON_ERROR] or no [on_error], a one-character-unit map whose
    values are never [None] or [NotImplemented] translates a message whose
    unknown characters are 7-bit to the mapped objects of its known
    characters, in order; the unknown characters leave no trace, the run
    ends normally and the queue ends empty. *)
Theorem unit_map_translate_ignore (message : string) (on_error : pyval) :
  on_error = IGNORE_ON_ERROR ∨ on_error = PyNone →
  (∀ c, c ∈ chars_of message → m !! str1 c = None → is_7bit c = true) →
  translate self message on_error
  = mk_run (omap (λ c, m !! str1 c) (chars_of message)) StopIteration self "".
Proof.
  intros Hpol. unfold translate. change (reset self) with self.
  induction message as [|c rest IH]; intros H7; [done|].
  rewrite translate_loop_cons. simpl chars_of. simpl omap.
  assert (IH' := IH (λ d Hd, H7 d (list_elem_of_further _ _ _ Hd))).
  destruct (m !! str1 c) as [v|] eqn:Hc.
  - rewrite (unit_map_loop_body_known c v on_error Hc), IH'. done.
  - rewrite (unit_map_loop_body_unknown c on_error Hc)
      by (apply H7; [simpl; left|done]).
    rewrite decide_False by (destruct Hpol; congruence).
    rewrite decide_True by done. by rewrite IH'.
Qed.

(** With a replacement object as [on_error], every character of a message
    whose unknown characters are 7-bit gives exactly one output: its mapped
    object if it is known, the replacement if not. *)
Theorem unit_map_translate_replace (message : string) (on_error : pyval) :
  on_error ≠ RAISE_ON_ERROR → on_error ≠ IGNORE_ON_ERROR →
  on_error ≠ PyNone →
  (∀ c, c ∈ chars_of message → m !! str1 c = None → is_7bit c = true) →
  translate self message on_error
  = mk_run (List.map (λ c, default on_error (m !! str1 c)) (chars_of message))
      StopIteration self "".
Proof.
  intros Hr Hi Hn. unfold translate. change (reset self) with self.
  induction message as [|c rest IH]; intros H7; [done|].
  rewrite translate_loop_cons. simpl chars_of. simpl List.map.
  assert (IH' := IH (λ d Hd, H7 d (list_elem_of_further _ _ _ Hd))).
  destruct (m !! str1 c) as [v|] eqn:Hc.
  - rewrite (unit_map_loop_body_known c v on_error Hc), IH'. done.
  - rewrite (unit_map_loop_body_unknown c on_error Hc)
      by (apply H7; [simpl; left|done]).
    rewrite decide_False by done.
    rewrite decide_False by (intros [?|?]; done). by rewrite IH'.
Qed.

(** With [RAISE_ON_ERROR], a message of known characters is translated in
    full; otherwise the objects of the characters before the first unknown
    one are yielded and then an exception is raised for that character,
    which is still in the queue: [TranslationError] if it is 7-bit,
    [UnicodeDecodeError] if it is a byte >= 0x80.  In the latter case the
    run ends the same way under every [on_error]. *)
Theorem unit_map_translate_raise (known : string) :
  (∀ c, c ∈ chars_of known → is_Some (m !! str1 c)) →
  translate self known RAISE_ON_ERROR
  = mk_run (omap (λ c, m !! str1 c) (chars_of known)) StopIteration self ""
  ∧ (∀ (c : ascii) (rest : string),
       m !! str1 c = None →
       translate self (known ++ String c rest) RAISE_ON_ERROR
       = mk_run (omap (λ c, m !! str1 c) (chars_of known))
           (Raised (if is_7bit c
                    then TranslationError (not_in_allowed_chars (str1 c))
                    else UnicodeDecodeError)) self (str1 c))
  ∧ (∀ (c : ascii) (rest : string) (on_error : pyval),
       m !! str1 c = None → is_7bit c = false →
       translate self (known ++ String c rest) on_error
       = mk_run (omap (λ c, m !! str1 c) (chars_of known))
           (Raised UnicodeDecodeError) self (str1 c)).
Proof.
  unfold translate. change (reset self) with self.
  induction known as [|d known IH]; intros Hknown.
  - split; [done|]. split.
    + intros c rest Hc. change ("" ++ String c rest) with (String c rest).
      rewrite translate_loop_cons. destruct (is_7bit c) eqn:H7.
      * rewrite (unit_map_loop_body_unknown c RAISE_ON_ERROR Hc H7).
        by rewrite decide_True.
      * by rewrite (unit_map_loop_body_high c RAISE_ON_ERROR Hc H7).
    + intros c rest on_error Hc H7.
      change ("" ++ String c rest) with (String c rest).
      rewrite translate_loop_cons.
      by rewrite (unit_map_loop_body_high c on_error Hc H7).
  - destruct (Hknown d) as [v Hd]; [simpl; left|].
    destruct IH as (IH1 & IH2 & IH3).
    { intros c Hc. apply Hknown. simpl. by right. }
    simpl chars_of. simpl omap. rewrite Hd. split; [|split].
    + rewrite translate_loop_cons.
      by rewrite (unit_map_loop_body_known d v _ Hd), IH1.
    + intros c rest Hc. rewrite append_cons, translate_loop_cons.
      by rewrite (unit_map_loop_body_known d v _ Hd), (IH2 c rest Hc).
    + intros c rest on_error Hc H7. rewrite append_cons, translate_loop_cons.
      by rewrite (unit_map_loop_body_known d v _ Hd), (IH3 c rest on_error Hc H7).
Qed.
End UnitMap.

Lemma charmap_no_skip_emittable (chars : string) (offset : Z) (k : string)
    (v : pyval) :
  charmap chars offset PyNone !! k = Some v →
  v ≠ PyNone ∧ v ≠ PyNotImplemented.
Proof.
  intros Hk. destruct (charmap_no_skip_values _ _ _ _ Hk) as [n ->].
  split; discriminate.
Qed.

(** Every character of a literal message is 7-bit. *)
Lemma chars_7bit (message : string) :
  ascii_decodable message = true →
  ∀ c, c ∈ chars_of message → is_7bit c = true.
Proof.
  unfold ascii_decodable.
  induction message as [|d message IH]; intros Hall c Hc; simpl in *.
  - by apply elem_of_nil in Hc.
  - apply andb_prop in Hall as [Hd Hrest].
    apply elem_of_cons in Hc as [->|Hc]; [done|by apply IH].
Qed.

(** [digits] on ['12a4'] with no [on_error]. *)
Lemma unit_map_translate_ignore_witness :
  digits "12a4" PyNone
  = mk_run [PyInt 1; PyInt 2; PyInt 4] StopIteration
      (MapTranslation_init (charmap "0123456789" 0 PyNone) 1 1 None) "".
Proof.
  apply (unit_map_translate_ignore (charmap "0123456789" 0 PyNone)
           (charmap_no_skip_emittable "0123456789" 0) "12a4" PyNone).
  - by right.
  - intros c Hc _. by apply (chars_7bit "12a4").
Defined.

(** [digits] on ['12a4'] with [on_error='#']. *)
Lemma unit_map_translate_replace_witness :
  digits "12a4" (PyStr "#")
  = mk_run [PyInt 1; PyInt 2; PyStr "#"; PyInt 4] StopIteration
      (MapTranslation_init (charmap "0123456789" 0 PyNone) 1 1 None) "".
Proof.
  apply (unit_map_translate_replace (charmap "0123456789" 0 PyNone)
           (charmap_no_skip_emittable "0123456789" 0) "12a4" (PyStr "#"));
    [discriminate..|].
  intros c Hc _. by apply (chars_7bit "12a4").
Defined.

(** [digits] on ['12'], on ['12a4'] and on ['12'] followed by the byte 0xe9,
    with [RAISE_ON_ERROR]; the last one also with [on_error='#']. *)
Lemma unit_map_translate_raise_witness :
  digits "12" RAISE_ON_ERROR
  = mk_run [PyInt 1; PyInt 2] StopIteration
      (MapTranslation_init (charmap "0123456789" 0 PyNone) 1 1 None) ""
  ∧ digits "12a4" RAISE_ON_ERROR
    = mk_run [PyInt 1; PyInt 2]
        (Raised (TranslationError (not_in_allowed_chars "a")))
        (MapTranslation_init (charmap "0123456789" 0 PyNone) 1 1 None) "a"
  ∧ digits ("12" ++ String (chr 233) "4") (PyStr "#")
    = mk_run [PyInt 1; PyInt 2] (Raised UnicodeDecodeError)
        (MapTranslation_init (charmap "0123456789" 0 PyNone) 1 1 None)
        (str1 (chr 233)).
Proof.
  destruct (unit_map_translate_raise (charmap "0123456789" 0 PyNone)
              (charmap_no_skip_emittable "0123456789" 0) "12")
    as (Hall & Hfirst & Hhigh).
  - intros c Hc. simpl in Hc.
    apply elem_of_cons in Hc as [->|Hc]; [eexists; vm_compute; reflexivity|].
    apply elem_of_cons in Hc as [->|Hc]; [eexists; vm_compute; reflexivity|].
    by apply elem_of_nil in Hc.
  - split; [exact Hall|]. split.
    + apply (Hfirst "a"%char "4"). reflexivity.
    + apply (Hhigh (chr 233) "4" (PyStr "#")); reflexivity.
Defined.

(** The module-level map [digits] read at a character. *)
Lemma digits_lookup (c : ascii) :
  charmap "0123456789" 0 PyNone !! str1 c
  = if is_digit c then Some (PyInt (digit_value c)) else None.
Proof.
  revert c.
  assert (Hall : ∀ a, bool_decide
            (charmap "0123456789" 0 PyNone !! str1 a
             = if is_digit a then Some (PyInt (digit_value a)) else None)
            = true).
  { apply ascii_forall. vm_compute. reflexivity. }
  intros c. exact (bool_decide_eq_true_1 _ (Hall c)).
Qed.

(** The shortcut [digits] on a message of 7-bit characters: with
    [IGNORE_ON_ERROR] or no [on_error] it yields the value of every decimal
    digit of the message and nothing for any other character; with a
    replacement object it yields one output per character, the replacement
    standing for each non-digit; with any [on_error] other than
    [RAISE_ON_ERROR] the run ends normally. *)
Theorem digits_values (message : string) (on_error : pyval) :
  ascii_decodable message = true →
  (on_error = IGNORE_ON_ERROR ∨ on_error = PyNone →
   yielded (digits message on_error)
   = List.map (λ c, PyInt (digit_value c))
       (List.filter is_digit (chars_of message)))
  ∧ (on_error ≠ RAISE_ON_ERROR → on_error ≠ IGNORE_ON_ERROR →
     on_error ≠ PyNone →
     yielded (digits message on_error)
     = List.map (λ c, if is_digit c then PyInt (digit_value c) else on_error)
         (chars_of message))
  ∧ (on_error ≠ RAISE_ON_ERROR →
     stop (digits message on_error) = StopIteration).
Proof.
  unfold digits, translate.
  set (m := charmap "0123456789" 0 PyNone).
  pose proof (charmap_no_skip_emittable "0123456789" 0) as Hval. fold m in Hval.
  change (reset (MapTranslation_init m 1 1 None))
    with (MapTranslation_init m 1 1 None).
  induction message as [|c rest IH]; intros Hascii; [done|].
  apply andb_prop in Hascii as [H7 Hrest].
  destruct (IH Hrest) as (IHi & IHr & IHs).
  rewrite translate_loop_cons. simpl chars_of. simpl List.filter.
  simpl List.map. pose proof (digits_lookup c) as Hc. fold m in Hc.
  destruct (is_digit c).
  - rewrite (unit_map_loop_body_known m Hval c _ on_error Hc).
    split; [|split].
    + intros Hpol. simpl. by rewrite (IHi Hpol).
    + intros Hr Hi Hn. simpl. by rewrite (IHr Hr Hi Hn).
    + intros Hr. rewrite stop_emit. by apply IHs.
  - rewrite (unit_map_loop_body_unknown m c on_error Hc H7).
    split; [|split].
    + intros Hpol. rewrite decide_False by (destruct Hpol; congruence).
      rewrite decide_True by done. by apply IHi.
    + intros Hr Hi Hn. rewrite decide_False by done.
      rewrite decide_False by (intros [?|?]; done).
      simpl. by rewrite (IHr Hr Hi Hn).
    + intros Hr. rewrite decide_False by done.
      destruct (decide (on_error = IGNORE_ON_ERROR ∨ on_error = PyNone));
        rewrite stop_emit; by apply IHs.
Qed.

(** ['a1b22c'] through [digits]. *)
Lemma digits_values_witness :
  yielded (digits "a1b22c" IGNORE_ON_ERROR) = [PyInt 1; PyInt 2; PyInt 2]
  ∧ yielded (digits "a1b" (PyStr "?")) = [PyStr "?"; PyInt 1; PyStr "?"]
  ∧ stop (digits "a1b22c" (PyStr "?")) = StopIteration.
Proof.
  split; [|split].
  - apply (proj1 (digits_values "a1b22c" IGNORE_ON_ERROR eq_refl)). by left.
  - apply (proj1 (proj2 (digits_values "a1b" (PyStr "?") eq_refl)));
      discriminate.
  - apply (proj2 (proj2 (digits_values "a1b22c" (PyStr "?") eq_refl))).
    discriminate.
Defined.

(** ** MapTranslation: after a key mapped to None *)

(** With units of one character, a character mapped to [None] stays in the
    queue, so the next character makes the queue too long: that character
    is lost to an error, whether or not it is itself a key of the map.  When
    both characters are 7-bit the error is a [TranslationError]: it is
    raised, dropped or replaced by [on_error], and the queue is empty again
    for what follows.  When one of them is a byte >= 0x80 the run ends with
    the [UnicodeDecodeError] of formatting the message, whatever [on_error]
    is. *)
Theorem MapTranslation_none_swallows_next (m : gmap string pyval)
    (s c : ascii) (rest : string) (on_error : pyval) :
  m !! str1 s = Some PyNone →
  let self := MapTranslation_init m 1 1 None in
  translate_loop self "" (String s (String c rest)) on_error =
  if is_7bit s && is_7bit c then
    if decide (on_error = RAISE_ON_ERROR) then
      mk_run []
        (Raised (TranslationError (unable_to_translate (String s (str1 c)))))
        self (String s (str1 c))
    else if decide (on_error = IGNORE_ON_ERROR ∨ on_error = PyNone) then
      translate_loop self "" rest on_error
    else
      emit (Some on_error) (translate_loop self "" rest on_error)
  else
    mk_run [] (Raised UnicodeDecodeError) self (String s (str1 c)).
Proof.
  intros Hs self.
  assert (Htc1 : translate_chars self ("" ++ str1 s) = (Return PyNone, self)).
  { change ("" ++ str1 s) with (str1 s).
    rewrite MapTranslation_translate_chars_allowed.
    - unfold get. simpl. by rewrite Hs.
    - done.
    - apply elem_of_keys. eauto. }
  assert (Htc2 : translate_chars self (("" ++ str1 s) ++ str1 c)
                 = (Raise (formatted_TranslationError
                             (unable_to_translate (String s (str1 c)))), self))
    by done.
  assert (Hfmt : ascii_decodable
                   (message_argument (unable_to_translate (String s (str1 c))))
                 = is_7bit s && is_7bit c).
  { unfold ascii_decodable. simpl. by rewrite andb_true_r. }
  rewrite translate_loop_cons, (loop_body_none _ _ _ _ on_error Htc1).
  unfold emit at 1. rewrite translate_loop_cons.
  destruct (is_7bit s && is_7bit c) eqn:H7.
  - rewrite formatted_TranslationError_ascii in Htc2 by congruence.
    rewrite (loop_body_translation_error _ _ _ _ on_error _ Htc2).
    destruct (decide (on_error = RAISE_ON_ERROR)); [done|].
    by destruct (decide (on_error = IGNORE_ON_ERROR ∨ on_error = PyNone)).
  - rewrite formatted_TranslationError_high in Htc2 by congruence.
    by rewrite (loop_body_other_exception _ _ _ _ on_error _ Htc2).
Qed.

(** The docstring's alphabet with skip ['*']: in ['*1'] the ['1'] is lost. *)
Lemma MapTranslation_none_swallows_next_witness :
  translate_loop
    (MapTranslation_init (charmap "0*1*2*3*4" 100 (PyStr "*")) 1 1 None)
    "" "*12" PyNone
  = mk_run [PyInt 104] StopIteration
      (MapTranslation_init (charmap "0*1*2*3*4" 100 (PyStr "*")) 1 1 None) "".
Proof.
  rewrite (MapTranslation_none_swallows_next
             (charmap "0*1*2*3*4" 100 (PyStr "*")) "*" "1" "2" PyNone);
    [|reflexivity].
  vm_compute. reflexivity.
Defined.

(** ** Code128Translation: the code tables *)

Lemma index_CODE_A_TABLE (c : ascii) :
  index CODE_A_TABLE c =
  if decide (ord c < 32)%Z then Some (ord c + 64)
  else if decide (ord c < 96)%Z then Some (ord c - 32)
  else None.
Proof.
  revert c.
  assert (Hall : ∀ a, bool_decide
            (index CODE_A_TABLE a =
             if decide (ord a < 32)%Z then Some (ord a + 64)
             else if decide (ord a < 96)%Z then Some (ord a - 32)
             else None) = true).
  { apply ascii_forall. vm_compute. reflexivity. }
  intros c. exact (bool_decide_eq_true_1 _ (Hall c)).
Qed.

Lemma index_CODE_B_TABLE (c : ascii) :
  index CODE_B_TABLE c =
  if decide (32 ≤ ord c < 128)%Z then Some (ord c - 32) else None.
Proof.
  revert c.
  assert (Hall : ∀ a, bool_decide
            (index CODE_B_TABLE a =
             if decide (32 ≤ ord a < 128)%Z then Some (ord a - 32) else None)
            = true).
  { apply ascii_forall. vm_compute. reflexivity. }
  intros c. exact (bool_decide_eq_true_1 _ (Hall c)).
Qed.

Lemma ord_range (c : ascii) : (0 ≤ ord c < 256)%Z.
Proof. unfold ord. pose proof (nat_ascii_bounded c). lia. Qed.

Lemma CODE_TABLES_index_bound (cs : codeset) (code_table : string)
    (c : ascii) (i : Z) :
  CODE_TABLES cs = Some code_table → index code_table c = Some i →
  (0 ≤ i ≤ 95)%Z.
Proof.
  pose proof (ord_range c) as Hc.
  destruct cs; simpl; intros [= <-].
  - rewrite index_CODE_A_TABLE. repeat case_decide; intros [= <-]; lia.
  - rewrite index_CODE_B_TABLE. case_decide; intros [= <-]; lia.
Qed.

(** Table A holds the bytes 32..95 at positions 0..63 and the bytes 0..31 at
    positions 64..95; table B holds the bytes 32..127 at positions 0..95.
    Every other byte is absent, and no position reaches the escape ordinals
    96..107. *)
Theorem CODE_TABLES_positions (c : ascii) :
  index CODE_A_TABLE c
  = (if decide (ord c < 32)%Z then Some (ord c + 64)
     else if decide (ord c < 96)%Z then Some (ord c - 32)
     else None)
  ∧ index CODE_B_TABLE c
    = (if decide (32 ≤ ord c < 128)%Z then Some (ord c - 32) else None)
  ∧ ∀ (cs : codeset) (code_table : string) (i : Z),
      CODE_TABLES cs = Some code_table → index code_table c = Some i →
      (0 ≤ i ≤ 95)%Z.
Proof.
  split; [apply index_CODE_A_TABLE|]. split; [apply index_CODE_B_TABLE|].
  intros cs code_table i. apply CODE_TABLES_index_bound.
Qed.

(** ['Z'] in table A, as in the docstring, and a control byte. *)
Lemma CODE_TABLES_positions_witness :
  index CODE_A_TABLE "Z" = Some 58
  ∧ index CODE_A_TABLE (chr 2) = Some 66
  ∧ index CODE_B_TABLE "b" = Some 66
  ∧ (0 ≤ 58 ≤ 95)%Z.
Proof.
  destruct (CODE_TABLES_positions "Z") as (HA & _ & Hbound).
  destruct (CODE_TABLES_positions (chr 2)) as (HA2 & _).
  destruct (CODE_TABLES_positions "b") as (_ & HB & _).
  split; [exact HA|]. split; [exact HA2|]. split; [exact HB|].
  apply (Hbound code_A CODE_A_TABLE 58); reflexivity.
Defined.

(** ** Code128Translation: whole runs *)

(** Written through [translate], each of the escapes ['^96'] .. ['^107']
    takes three or four passes, yields its ordinal once and leaves the mode
    [shifted] gives, whatever the mode was; ['^^'] yields 62 and keeps the
    mode.  The queue is empty again for what follows. *)
Theorem Code128Translation_escape_run (self : Code128Translation) (v : Z)
    (rest : string) (on_error : pyval) :
  (96 ≤ v ≤ 107)%Z →
  translate_loop self "" ("^" ++ str v ++ rest) on_error
  = emit (Some (PyInt v))
      (translate_loop (mk_Code128Translation (shifted v (code self))) "" rest
         on_error)
  ∧ translate_loop self "" ("^^" ++ rest) on_error
    = emit (Some (PyInt 62)) (translate_loop self "" rest on_error).
Proof.
  intros Hv. split; [|reflexivity].
  assert (Hcases : v = 96 ∨ v = 97 ∨ v = 98 ∨ v = 99 ∨ v = 100 ∨ v = 101
                   ∨ v = 102 ∨ v = 103 ∨ v = 104 ∨ v = 105 ∨ v = 106
                   ∨ v = 107) by lia.
  destruct self as [code0].
  repeat (destruct Hcases as [->|Hcases]; [reflexivity|]).
  subst v. reflexivity.
Qed.

(** The docstring's ['^105^102'] from a fresh instance. *)
Lemma Code128Translation_escape_run_witness :
  code128 "^105^102" RAISE_ON_ERROR
  = mk_run [PyInt 105; PyInt 102] StopIteration
      (mk_Code128Translation (Some code_C)) "".
Proof.
  destruct (Code128Translation_escape_run Code128Translation_init 105
              "^102" RAISE_ON_ERROR) as [H105 _]; [lia|].
  destruct (Code128Translation_escape_run
              (mk_Code128Translation (Some code_C)) 102 "" RAISE_ON_ERROR)
    as [H102 _]; [lia|].
  etrans; [exact H105|].
  change (shifted 105 (code Code128Translation_init)) with (Some code_C).
  etrans; [apply (f_equal (emit (Some (PyInt 105)))); exact H102|].
  reflexivity.
Defined.

(** In mode A or B, a run of characters that are in the table and are not
    ['^'] is translated character by character to table positions. *)
Lemma table_run (cs : codeset) (code_table : string) (message : string)
    (on_error : pyval) :
  CODE_TABLES cs = Some code_table →
  (∀ c, c ∈ chars_of message → c ≠ "^"%char ∧ is_Some (index code_table c)) →
  translate_loop (mk_Code128Translation (Some cs)) "" message on_error
  = mk_run (omap (λ c, PyInt <$> index code_table c) (chars_of message))
      StopIteration (mk_Code128Translation (Some cs)) "".
Proof.
  intros Htab. induction message as [|c rest IH]; intros Hin; [done|].
  destruct (Hin c) as [Hc [i Hi]]; [simpl; left|].
  rewrite translate_loop_cons.
  pose proof (Code128Translation_translate_chars_table cs code_table c ""
                Hc Htab) as Htc.
  rewrite Hi in Htc. change (String c "") with ("" ++ str1 c) in Htc.
  rewrite (loop_body_return _ _ _ _ on_error _ Htc).
  rewrite !decide_False by done.
  rewrite IH by (intros d Hd; apply Hin; simpl; by right).
  simpl chars_of. simpl omap. by rewrite Hi.
Qed.

(** Plain text through [code128]. After ['^104'] (start B), a message of
    bytes 32..127 other than ['^'] is translated to [104] followed by
    [ord(c) - 32] for each character; after ['^103'] (start A), a message of
    bytes below 96 other than ['^'] is translated to [103] followed by
    [ord(c) - 32] for the bytes from 32 and [ord(c) + 64] for the control
    bytes.  Both runs end normally with an empty queue, for every
    [on_error]. *)
Theorem code128_table_text (message : string) (on_error : pyval) :
  ((∀ c, c ∈ chars_of message → c ≠ "^"%char ∧ (32 ≤ ord c < 128)%Z) →
   code128 ("^104" ++ message) on_error
   = mk_run (PyInt 104 :: List.map (λ c, PyInt (ord c - 32)) (chars_of message))
       StopIteration (mk_Code128Translation (Some code_B)) "")
  ∧ ((∀ c, c ∈ chars_of message → c ≠ "^"%char ∧ (ord c < 96)%Z) →
     code128 ("^103" ++ message) on_error
     = mk_run
         (PyInt 103
          :: List.map (λ c, PyInt (if decide (ord c < 32)%Z then ord c + 64
                                   else ord c - 32)) (chars_of message))
         StopIteration (mk_Code128Translation (Some code_A)) "").
Proof.
  split; intros Hin.
  - change (code128 ("^104" ++ message) on_error)
      with (emit (Some (PyInt 104))
              (translate_loop (mk_Code128Translation (Some code_B)) "" message
                 on_error)).
    rewrite (table_run code_B CODE_B_TABLE message on_error eq_refl).
    + simpl. do 2 f_equal. clear -Hin.
      induction message as [|c rest IH]; [done|]. simpl.
      destruct (Hin c) as [_ Hc]; [simpl; left|].
      rewrite index_CODE_B_TABLE, decide_True by done. simpl. f_equal.
      apply IH. intros d Hd. apply Hin. simpl. by right.
    + intros c Hc. destruct (Hin c Hc) as [Hcaret Hord]. split; [done|].
      rewrite index_CODE_B_TABLE, decide_True by done. eauto.
  - change (code128 ("^103" ++ message) on_error)
      with (emit (Some (PyInt 103))
              (translate_loop (mk_Code128Translation (Some code_A)) "" message
                 on_error)).
    rewrite (table_run code_A CODE_A_TABLE message on_error eq_refl).
    + simpl. do 2 f_equal. clear -Hin.
      induction message as [|c rest IH]; [done|]. simpl.
      destruct (Hin c) as [_ Hc]; [simpl; left|].
      rewrite index_CODE_A_TABLE.
      destruct (decide (ord c < 32)%Z); simpl.
      * f_equal. apply IH. intros d Hd. apply Hin. simpl. by right.
      * rewrite decide_True by done. simpl. f_equal.
        apply IH. intros d Hd. apply Hin. simpl. by right.
    + intros c Hc. destruct (Hin c Hc) as [Hcaret Hord]. split; [done|].
      rewrite index_CODE_A_TABLE.
      destruct (decide (ord c < 32)%Z); [eauto|].
      rewrite decide_True by done. eauto.
Qed.

(** The docstring's ['AZ_'] after ['^104'] and after ['^103']. *)
Lemma code128_table_text_witness :
  code128 "^104AZ_" RAISE_ON_ERROR
  = mk_run [PyInt 104; PyInt 33; PyInt 58; PyInt 63] StopIteration
      (mk_Code128Translation (Some code_B)) ""
  ∧ code128 "^103AZ_" RAISE_ON_ERROR
    = mk_run [PyInt 103; PyInt 33; PyInt 58; PyInt 63] StopIteration
        (mk_Code128Translation (Some code_A)) "".
Proof.
  split.
  - apply (proj1 (code128_table_text "AZ_" RAISE_ON_ERROR)).
    intros c Hc. simpl in Hc.
    repeat (apply elem_of_cons in Hc as [->|Hc];
            [split; [discriminate|apply (bool_decide_unpack _); vm_compute; reflexivity]|]).
    by apply elem_of_nil in Hc.
  - apply (proj2 (code128_table_text "AZ_" RAISE_ON_ERROR)).
    intros c Hc. simpl in Hc.
    repeat (apply elem_of_cons in Hc as [->|Hc];
            [split; [discriminate|apply (bool_decide_unpack _); vm_compute; reflexivity]|]).
    by apply elem_of_nil in Hc.
Defined.

(** ** Code128Translation: digit pairs through [translate] *)

Lemma is_digit_not_caret (c : ascii) : is_digit c = true → c ≠ "^"%char.
Proof. intros Hd ->. discriminate. Qed.

Lemma mode_C_pair (a b : ascii) (rest : string) (on_error : pyval) :
  is_digit a = true → is_digit b = true →
  translate_loop (mk_Code128Translation (Some code_C)) ""
    (String a (String b rest)) on_error
  = emit (Some (PyInt (10 * digit_value a + digit_value b)))
      (translate_loop (mk_Code128Translation (Some code_C)) "" rest on_error).
Proof.
  intros Ha Hb. pose proof (is_digit_not_caret a Ha) as Hcaret.
  set (self := mk_Code128Translation (Some code_C)).
  assert (Htc1 : translate_chars self ("" ++ str1 a) = (Return PyNone, self)).
  { simpl. by rewrite decide_False by done. }
  assert (Htc2 : translate_chars self (("" ++ str1 a) ++ str1 b)
                 = (Return (PyInt (10 * digit_value a + digit_value b)), self)).
  { change (("" ++ str1 a) ++ str1 b) with (String a (str1 b)).
    simpl. rewrite decide_False by done.
    rewrite (int_isdigit (String a (str1 b))) by (simpl; by rewrite Ha, Hb).
    done. }
  rewrite translate_loop_cons, (loop_body_none _ _ _ _ on_error Htc1).
  unfold emit at 1. rewrite translate_loop_cons.
  by rewrite (loop_body_return _ _ _ _ on_error _ Htc2).
Qed.

(** Digits through [code128] in mode C. After ['^105'] a message made of
    pairs of decimal digits is translated to [105] followed by the two-digit
    value of each pair.  A single further character other than ['^'] at the
    end is left in the queue and gives no output and no error. *)
Theorem code128_digit_pairs (pairs : list (ascii * ascii)) (last : string)
    (on_error : pyval) :
  (∀ p, p ∈ pairs → is_digit p.1 = true ∧ is_digit p.2 = true) →
  (last = "" ∨ ∃ d : ascii, last = str1 d ∧ d ≠ "^"%char) →
  code128
    ("^105" ++ string_of_list_ascii (flat_map (λ p, [p.1; p.2]) pairs) ++ last)
    on_error
  = mk_run
      (PyInt 105
       :: List.map (λ p, PyInt (10 * digit_value p.1 + digit_value p.2)) pairs)
      StopIteration (mk_Code128Translation (Some code_C)) last.
Proof.
  intros Hpairs Hlast.
  set (body := string_of_list_ascii (flat_map (λ p, [p.1; p.2]) pairs) ++ last).
  change (code128 ("^105" ++ body) on_error)
    with (emit (Some (PyInt 105))
            (translate_loop (mk_Code128Translation (Some code_C)) "" body
               on_error)).
  assert (Hrun :
    translate_loop (mk_Code128Translation (Some code_C)) "" body on_error
    = mk_run
        (List.map (λ p, PyInt (10 * digit_value p.1 + digit_value p.2)) pairs)
        StopIteration (mk_Code128Translation (Some code_C)) last);
    [|by rewrite Hrun].
  unfold body. clear body. induction pairs as [|[a b] pairs IH].
  - simpl. destruct Hlast as [->|(d & -> & Hd)]; [done|].
    change ("" ++ str1 d) with (String d "").
    rewrite translate_loop_cons.
    assert (Htc : translate_chars (mk_Code128Translation (Some code_C))
                    ("" ++ str1 d)
                  = (Return PyNone, mk_Code128Translation (Some code_C))).
    { simpl. by rewrite decide_False by done. }
    by rewrite (loop_body_none _ _ _ _ on_error Htc).
  - destruct (Hpairs (a, b)) as [Ha Hb]; [simpl; left|]. simpl in Ha, Hb.
    simpl flat_map. simpl string_of_list_ascii. rewrite !append_cons.
    rewrite (mode_C_pair a b _ on_error Ha Hb).
    rewrite IH by (intros p Hp; apply Hpairs; simpl; by right).
    done.
Qed.

(** The docstring's ['123456'] after ['^105'], and with an odd digit left. *)
Lemma code128_digit_pairs_witness :
  code128 "^105123456" RAISE_ON_ERROR
  = mk_run [PyInt 105; PyInt 12; PyInt 34; PyInt 56] StopIteration
      (mk_Code128Translation (Some code_C)) ""
  ∧ code128 "^105127" RAISE_ON_ERROR
    = mk_run [PyInt 105; PyInt 12] StopIteration
        (mk_Code128Translation (Some code_C)) "7".
Proof.
  split.
  - apply (code128_digit_pairs
             [("1", "2"); ("3", "4"); ("5", "6")]%char "" RAISE_ON_ERROR);
      [|by left].
    intros p Hp.
    repeat (apply elem_of_cons in Hp as [->|Hp]; [by split|]).
    by apply elem_of_nil in Hp.
  - apply (code128_digit_pairs [("1", "2")]%char "7" RAISE_ON_ERROR).
    + intros p Hp.
      repeat (apply elem_of_cons in Hp as [->|Hp]; [by split|]).
      by apply elem_of_nil in Hp.
    + right. exists "7"%char. by split.
Defined.

(** ** Code128Translation: what [translate_chars] can give *)

Lemma int_two_chars_bound (a b : ascii) (n : Z) :
  int (String a (str1 b)) = Some n → (-9 ≤ n ≤ 99)%Z.
Proof.
  assert (Htable :
    forallb (λ a, forallb (λ b,
      match int (String a (str1 b)) with
      | Some n => ((-9 <=? n) && (n <=? 99))%Z
      | None => true
      end)
      (List.map ascii_of_nat (seq 0 256)))
      (List.map ascii_of_nat (seq 0 256)) = true)
    by (vm_compute; reflexivity).
  rewrite forallb_forall in Htable.
  specialize (Htable a (ascii_enumerated a)).
  rewrite forallb_forall in Htable.
  specialize (Htable b (ascii_enumerated b)).
  intros Hint. rewrite Hint in Htable.
  apply andb_prop in Htable as [H1 H2].
  apply Z.leb_le in H1, H2. lia.
Qed.

(** The outcomes of [translate_chars] on a non-empty queue. *)
Lemma Code128Translation_outcome_cases
    (self : Code128Translation) (chars : string) :
  chars ≠ "" →
  (translate_chars self chars).1 = Return PyNone
  ∨ (∃ n : Z, (translate_chars self chars).1 = Return (PyInt n)
              ∧ (-9 ≤ n ≤ 107)%Z
              ∧ ((n < 0)%Z → code self = Some code_C))
  ∨ (∃ msg, (translate_chars self chars).1 = Raise (TranslationError msg))
  ∨ (translate_chars self chars).1 = Raise ValueError
  ∨ ((translate_chars self chars).1 = Raise UnicodeDecodeError
     ∧ ascii_decodable chars = false).
Proof.
  intros Hne. destruct chars as [|c0 rest]; [done|].
  destruct (decide (c0 = "^"%char)) as [->|Hc0].
  - destruct (isdigit rest) eqn:Hd.
    + rewrite (escape_digits_by_value self rest Hd). cbv zeta.
      destruct (decide (decimal rest < 96)%Z); [by left|].
      destruct (decide (decimal rest ≤ 107)%Z).
      * right. left. exists (decimal rest). split; [done|]. split; lia.
      * right. right. left. eauto.
    + destruct rest as [|c1 rest]; [by left|].
      destruct (decide (c1 = "^"%char)) as [->|Hc1].
      * right. left. exists 62%Z. split; [done|]. split; lia.
      * rewrite escape_payload_rejected by done.
        destruct (ascii_decodable (String c1 rest)) eqn:Hascii.
        -- rewrite formatted_TranslationError_ascii by done.
           right. right. left. eauto.
        -- rewrite formatted_TranslationError_high by done.
           do 4 right. split; [done|].
           change (is_7bit "^" && ascii_decodable (String c1 rest) = false).
           by rewrite Hascii.
  - destruct self as [[cs|]];
      [|left; by rewrite Code128Translation_translate_chars_no_code].
    destruct cs.
    + rewrite (Code128Translation_translate_chars_table code_A CODE_A_TABLE
                 c0 rest Hc0 eq_refl).
      destruct (index CODE_A_TABLE c0) as [i|] eqn:Hi; [|by right; right; right; left].
      pose proof (CODE_TABLES_index_bound code_A _ c0 i eq_refl Hi).
      right. left. exists i. split; [done|]. split; lia.
    + rewrite (Code128Translation_translate_chars_table code_B CODE_B_TABLE
                 c0 rest Hc0 eq_refl).
      destruct (index CODE_B_TABLE c0) as [i|] eqn:Hi; [|by right; right; right; left].
      pose proof (CODE_TABLES_index_bound code_B _ c0 i eq_refl Hi).
      right. left. exists i. split; [done|]. split; lia.
    + simpl. rewrite decide_False by done.
      destruct (decide (len (String c0 rest) = 2)) as [Hlen|]; [|by left].
      destruct rest as [|c1 [|c2 rest]].
      * discriminate Hlen.
      * destruct (int (String c0 (String c1 ""))) as [n|] eqn:Hint;
          [|by right; right; right; left].
        pose proof (int_two_chars_bound c0 c1 n Hint).
        right. left. exists n. split; [done|]. split; [lia|done].
      * unfold len in Hlen. simpl in Hlen. lia.
Qed.

(** ** cap_escape *)

Lemma append_assoc (a b c : string) : (a ++ b) ++ c = a ++ b ++ c.
Proof.
  induction a as [|d a IH]; [done|]. by rewrite !append_cons, IH.
Qed.

(** Facts about the escape text of a byte, checked on all 256 bytes: it is
    printable, its digits read back as the byte's ordinal, and a byte that
    is not printable has an ordinal below 96 or above 107. *)
Lemma escape_text_facts (c : ascii) :
  all_chars (contains string_printable) ("^" ++ str (ord c)) = true
  ∧ isdigit (str (ord c)) = true
  ∧ decimal (str (ord c)) = ord c
  ∧ (contains string_printable c = false → (ord c < 96 ∨ 107 < ord c)%Z).
Proof.
  revert c.
  assert (Hall : ∀ a,
    all_chars (contains string_printable) ("^" ++ str (ord a))
    && isdigit (str (ord a))
    && (decimal (str (ord a)) =? ord a)%Z
    && (contains string_printable a || (ord a <? 96)%Z || (107 <? ord a)%Z)
    = true).
  { apply ascii_forall. vm_compute. reflexivity. }
  intros c. specialize (Hall c).
  apply andb_prop in Hall as [Hall H4]. apply andb_prop in Hall as [Hall H3].
  apply andb_prop in Hall as [H1 H2].
  split; [done|]. split; [done|]. split; [by apply Z.eqb_eq|].
  intros Hnp. rewrite Hnp in H4. simpl in H4.
  apply orb_prop in H4 as [H4|H4]; [left; by apply Z.ltb_lt|right; by apply Z.ltb_lt].
Qed.

Lemma cap_escape_cons (c : ascii) (s : string) :
  cap_escape (String c s) =
  (if contains string_printable c then str1 c else "^" ++ str (ord c))
  ++ cap_escape s.
Proof. reflexivity. Qed.

Lemma cap_escape_output_printable (s : string) :
  all_chars (contains string_printable) (cap_escape s) = true.
Proof.
  induction s as [|c s IH]; [done|].
  rewrite cap_escape_cons, all_chars_app, IH, andb_true_r.
  destruct (contains string_printable c) eqn:Hc.
  - change (all_chars (contains string_printable) (str1 c))
      with (contains string_printable c && true).
    by rewrite Hc.
  - apply escape_text_facts.
Qed.

Lemma cap_escape_fixes_printable (s : string) :
  all_chars (contains string_printable) s = true → cap_escape s = s.
Proof.
  induction s as [|c s IH]; [done|].
  intros Hall.
  change (contains string_printable c
          && all_chars (contains string_printable) s = true) in Hall.
  apply andb_prop in Hall as [Hc Hs].
  by rewrite cap_escape_cons, Hc, (IH Hs).
Qed.

(** [cap_escape] gives printable characters only, whatever bytes it is
    given; it returns a string of printable characters unchanged, so
    escaping twice is the same as escaping once; and it maps a
    concatenation to the concatenation of the escapes. *)
Theorem cap_escape_printable (s : string) :
  all_chars (contains string_printable) (cap_escape s) = true
  ∧ (all_chars (contains string_printable) s = true → cap_escape s = s)
  ∧ cap_escape (cap_escape s) = cap_escape s
  ∧ ∀ t : string, cap_escape (s ++ t) = cap_escape s ++ cap_escape t.
Proof.
  split; [apply cap_escape_output_printable|].
  split; [apply cap_escape_fixes_printable|].
  split; [apply cap_escape_fixes_printable, cap_escape_output_printable|].
  intros t. induction s as [|c s IH]; [done|].
  by rewrite append_cons, !cap_escape_cons, IH, append_assoc.
Qed.

(** The docstring's ['abcdef'], and a string with a control byte. *)
Lemma cap_escape_printable_witness :
  cap_escape "abcdef" = "abcdef"
  ∧ cap_escape (cap_escape (String (chr 1) "a")) = "^1a".
Proof.
  split.
  - apply (proj1 (proj2 (cap_escape_printable "abcdef"))). reflexivity.
  - rewrite (proj1 (proj2 (proj2 (cap_escape_printable (String (chr 1) "a"))))).
    reflexivity.
Defined.

(** [cap_escape] cannot be undone: ['^'] itself is not escaped, so a byte
    that is not printable and the text of its own escape are different
    inputs with the same output. *)
Theorem cap_escape_not_injective (c : ascii) :
  contains string_printable c = false →
  cap_escape (str1 c) = "^" ++ str (ord c)
  ∧ cap_escape ("^" ++ str (ord c)) = "^" ++ str (ord c)
  ∧ str1 c ≠ "^" ++ str (ord c).
Proof.
  intros Hc. destruct (escape_text_facts c) as (Hp & Hd & _).
  split; [|split].
  - unfold str1. rewrite cap_escape_cons, Hc. apply append_empty_r.
  - by apply cap_escape_fixes_printable.
  - rewrite append_cons. unfold str1. intros [= _ Hstr].
    change ("" ++ str (ord c)) with (str (ord c)) in Hstr.
    rewrite <- Hstr in Hd. discriminate.
Qed.

(** The byte 1 and the text ['^1']. *)
Lemma cap_escape_not_injective_witness :
  cap_escape (str1 (chr 1)) = "^1" ∧ cap_escape "^1" = "^1"
  ∧ str1 (chr 1) ≠ "^1".
Proof.
  apply (cap_escape_not_injective (chr 1)). reflexivity.
Defined.

(** What [cap_escape] writes for a byte that is not printable is never an
    escape [translate_chars] resolves: its number is the byte's ordinal,
    which is below 96 (the queue stays pending, [None]) or above 107
    ([TranslationError]), in every mode. *)
Theorem cap_escape_never_resolves (self : Code128Translation) (c : ascii) :
  contains string_printable c = false →
  translate_chars self (cap_escape (str1 c)) =
  if decide (ord c < 96)%Z then (Return PyNone, self)
  else (Raise (TranslationError (not_allowed_for_escape (str (ord c)))), self).
Proof.
  intros Hc. destruct (escape_text_facts c) as (_ & Hd & Hval & Hrange).
  specialize (Hrange Hc).
  unfold str1. rewrite cap_escape_cons, Hc.
  change (cap_escape "") with "". rewrite append_empty_r, append_cons.
  change ("" ++ str (ord c)) with (str (ord c)).
  rewrite (escape_digits_by_value self _ Hd). cbv zeta. rewrite Hval.
  destruct (decide (ord c < 96)%Z); [done|].
  by rewrite decide_False by lia.
Qed.

(** The bytes 1 and 128 of the docstring, escaped and fed to
    [translate_chars]. *)
Lemma cap_escape_never_resolves_witness :
  translate_chars Code128Translation_init (cap_escape (str1 (chr 1)))
  = (Return PyNone, Code128Translation_init)
  ∧ translate_chars Code128Translation_init (cap_escape (str1 (chr 128)))
    = (Raise (TranslationError (not_allowed_for_escape "128")),
       Code128Translation_init).
Proof.
  split.
  - apply (cap_escape_never_resolves Code128Translation_init (chr 1)).
    reflexivity.
  - apply (cap_escape_never_resolves Code128Translation_init (chr 128)).
    reflexivity.
Defined.

(** ** Code128Translation: how runs end and what they yield *)

Lemma append_str1_nonempty (q : string) (c : ascii) : q ++ str1 c ≠ "".
Proof. destruct q; discriminate. Qed.

Lemma yielded_emit_Some {T : Type} (v : pyval) (r : run T) :
  yielded (emit (Some v) r) = v :: yielded r.
Proof. reflexivity. Qed.

(** On a non-empty queue [translate_chars] of [Code128Translation] returns
    [None] or an integer between -9 and 107, or raises [TranslationError],
    [ValueError] or, only on a queue with a byte >= 0x80, its subclass
    [UnicodeDecodeError]: never [NotImplemented], a string or another
    exception; a negative integer can only come from mode C.  So a run of
    [translate], from any instance and queue, ends normally, or with
    [ValueError] or [UnicodeDecodeError], or, only under [RAISE_ON_ERROR],
    with [TranslationError]; it never ends in [TypeError], and on 7-bit
    input never in [UnicodeDecodeError].  Every object it yields is
    [on_error] or an integer between -9 and 107. *)
Theorem Code128Translation_outcomes (on_error : pyval) :
  (∀ (self : Code128Translation) (chars : string),
      chars ≠ "" →
      (translate_chars self chars).1 = Return PyNone
      ∨ (∃ n : Z, (translate_chars self chars).1 = Return (PyInt n)
                  ∧ (-9 ≤ n ≤ 107)%Z
                  ∧ ((n < 0)%Z → code self = Some code_C))
      ∨ (∃ msg, (translate_chars self chars).1 = Raise (TranslationError msg))
      ∨ (translate_chars self chars).1 = Raise ValueError
      ∨ ((translate_chars self chars).1 = Raise UnicodeDecodeError
         ∧ ascii_decodable chars = false))
  ∧ (∀ (self : Code128Translation) (queue message : string),
       (stop (translate_loop self queue message on_error) = StopIteration
        ∨ stop (translate_loop self queue message on_error) = Raised ValueError
        ∨ stop (translate_loop self queue message on_error)
          = Raised UnicodeDecodeError
        ∨ (on_error = RAISE_ON_ERROR
           ∧ ∃ msg, stop (translate_loop self queue message on_error)
                    = Raised (TranslationError msg)))
       ∧ Forall (λ v, v = on_error ∨ ∃ n : Z, v = PyInt n ∧ (-9 ≤ n ≤ 107)%Z)
           (yielded (translate_loop self queue message on_error))
       ∧ (ascii_decodable queue = true → ascii_decodable message = true →
          stop (translate_loop self queue message on_error)
          ≠ Raised UnicodeDecodeError)).
Proof.
  split; [apply Code128Translation_outcome_cases|].
  intros self queue message. revert self queue.
  induction message as [|c rest IH]; intros self queue.
  { split; [by left|]. split; [apply Forall_nil_2|done]. }
  assert (Hrest : ascii_decodable queue = true →
                  ascii_decodable (String c rest) = true →
                  ascii_decodable (queue ++ str1 c) = true
                  ∧ ascii_decodable rest = true).
  { apply ascii_decodable_snoc. }
  rewrite translate_loop_cons.
  pose proof (Code128Translation_outcome_cases self (queue ++ str1 c)
                (append_str1_nonempty queue c)) as Hcases.
  destruct (translate_chars self (queue ++ str1 c)) as [r self'] eqn:Htc.
  simpl in Hcases.
  destruct Hcases as [->|[(n & -> & Hn & _)|[[msg ->]|[->|[-> Hhigh]]]]].
  - rewrite (loop_body_none _ _ _ _ on_error Htc). unfold emit.
    destruct (IH self' (queue ++ str1 c)) as (Hstop & Hy & Hascii).
    split; [done|]. split; [done|]. intros Hqa Hma.
    destruct (Hrest Hqa Hma). by apply Hascii.
  - rewrite (loop_body_return _ _ _ _ on_error _ Htc).
    rewrite !decide_False by done.
    rewrite stop_emit, yielded_emit_Some.
    destruct (IH self' "") as (Hstop & Hy & Hascii). split; [exact Hstop|].
    split; [apply Forall_cons; split; [right; eauto|exact Hy]|].
    intros Hqa Hma. destruct (Hrest Hqa Hma). by apply Hascii.
  - rewrite (loop_body_translation_error _ _ _ _ on_error _ Htc).
    destruct (decide (on_error = RAISE_ON_ERROR)) as [Hr|Hr].
    { split; [do 3 right; split; [done|]; eauto|].
      split; [apply Forall_nil_2|done]. }
    destruct (IH self' "") as (Hstop & Hy & Hascii).
    destruct (decide (on_error = IGNORE_ON_ERROR ∨ on_error = PyNone)).
    { unfold emit. split; [done|]. split; [done|].
      intros Hqa Hma. destruct (Hrest Hqa Hma). by apply Hascii. }
    rewrite stop_emit, yielded_emit_Some. split; [exact Hstop|].
    split; [apply Forall_cons; split; [by left|exact Hy]|].
    intros Hqa Hma. destruct (Hrest Hqa Hma). by apply Hascii.
  - rewrite (loop_body_other_exception _ _ _ _ on_error _ Htc) by done.
    split; [by right; left|]. split; [apply Forall_nil_2|done].
  - rewrite (loop_body_other_exception _ _ _ _ on_error _ Htc) by done.
    split; [by right; right; left|]. split; [apply Forall_nil_2|].
    intros Hqa Hma. destruct (Hrest Hqa Hma). congruence.
Qed.

(** In mode C the queue ['-7'] gives a negative ordinal; ['^103a'] ends in
    [ValueError]. *)
Lemma Code128Translation_outcomes_witness :
  (∃ n : Z,
     (translate_chars (mk_Code128Translation (Some code_C)) "-7").1
     = Return (PyInt n) ∧ (-9 ≤ n ≤ 107)%Z)
  ∧ stop (code128 "^103a" IGNORE_ON_ERROR) ≠ Raised TypeError
  ∧ stop (code128 "^103a" IGNORE_ON_ERROR) ≠ Raised UnicodeDecodeError.
Proof.
  split; [|split].
  - destruct (proj1 (Code128Translation_outcomes PyNone)
                (mk_Code128Translation (Some code_C)) "-7")
      as [Hn|[(n & Hn & Hr & _)|[[msg Hn]|[Hn|[Hn _]]]]];
      [discriminate | discriminate | | discriminate | discriminate
      | discriminate].
    exists n. by split.
  - destruct (proj2 (Code128Translation_outcomes IGNORE_ON_ERROR)
                Code128Translation_init "" "^103a")
      as [[Hs|[Hs|[Hs|[_ [msg Hs]]]]] _];
      unfold code128, translate;
      change (reset Code128Translation_init) with Code128Translation_init;
      rewrite Hs; discriminate.
  - destruct (proj2 (Code128Translation_outcomes IGNORE_ON_ERROR)
                Code128Translation_init "" "^103a") as (_ & _ & Hascii).
    apply Hascii; reflexivity.
Defined.

(** ** MapTranslation with units of a fixed width *)

Lemma length_append (q s : string) :
  String.length (q ++ s) = (String.length q + String.length s)%nat.
Proof.
  induction q as [|d q IH]; [done|]. rewrite append_cons. simpl. by rewrite IH.
Qed.

Lemma string_snoc (s : string) (k : nat) :
  String.length s = S k →
  ∃ (s' : string) (c : ascii), s = s' ++ str1 c ∧ String.length s' = k.
Proof.
  revert k. induction s as [|d s IH]; intros k Hlen; [done|].
  simpl in Hlen. injection Hlen as Hlen. destruct s as [|e s].
  - exists "", d. by subst k.
  - destruct k as [|k]; [done|].
    destruct (IH k Hlen) as (s' & c & Hs & Hk).
    exists (String d s'), c. rewrite append_cons, <- Hs. simpl. by rewrite Hk.
Qed.

Section FixedWidth.
Variable m : gmap string pyval.
Variable n : nat.
Hypothesis m_values :
  ∀ k v, m !! k = Some v → v ≠ PyNone ∧ v ≠ PyNotImplemented.

Let self : MapTranslation :=
  MapTranslation_init m (Z.of_nat n) (Z.of_nat n) None.

(** Characters that leave the queue shorter than the width only grow it. *)
Lemma fixed_width_pending (q s rest : string) (on_error : pyval) :
  (String.length q + String.length s < n)%nat →
  translate_loop self q (s ++ rest) on_error
  = translate_loop self (q ++ s) rest on_error.
Proof.
  revert q. induction s as [|c s IH]; intros q Hlen.
  - by rewrite append_empty_r.
  - simpl in Hlen. rewrite append_cons, translate_loop_cons.
    assert (Htc : translate_chars self (q ++ str1 c) = (Return PyNone, self)).
    { simpl. unfold MapTranslation_translate_chars. rewrite decide_True; [done|].
      simpl. unfold len. rewrite length_append. simpl. lia. }
    rewrite (loop_body_none _ _ _ _ on_error Htc). unfold emit.
    rewrite IH by (rewrite length_append; simpl; lia).
    by rewrite append_str1.
Qed.

(** A full unit from an empty queue. *)
Lemma fixed_width_chunk (chunk rest : string) (on_error : pyval) :
  String.length chunk = n → (1 ≤ n)%nat →
  translate_loop self "" (chunk ++ rest) on_error =
  match m !! chunk with
  | Some v => emit (Some v) (translate_loop self "" rest on_error)
  | None =>
      if ascii_decodable chunk then
        if decide (on_error = RAISE_ON_ERROR) then
          mk_run [] (Raised (TranslationError (not_in_allowed_chars chunk)))
            self chunk
        else if decide (on_error = IGNORE_ON_ERROR ∨ on_error = PyNone) then
          translate_loop self "" rest on_error
        else emit (Some on_error) (translate_loop self "" rest on_error)
      else mk_run [] (Raised UnicodeDecodeError) self chunk
  end.
Proof.
  intros Hlen Hn.
  destruct (string_snoc chunk (n - 1)) as (s & c & -> & Hs); [lia|].
  rewrite append_str1.
  rewrite (fixed_width_pending "" s (String c rest) on_error)
    by (simpl; lia).
  change ("" ++ s) with s. rewrite translate_loop_cons.
  assert (Hbounds : (min_chars self ≤ len (s ++ str1 c) ≤ max_chars self)%Z).
  { simpl. unfold len. rewrite Hlen. lia. }
  destruct (m !! (s ++ str1 c)) as [v|] eqn:Hm.
  - assert (Htc : translate_chars self (s ++ str1 c) = (Return v, self)).
    { rewrite MapTranslation_translate_chars_allowed; [|done|].
      - unfold get. simpl. by rewrite Hm.
      - apply elem_of_keys. eauto. }
    rewrite (loop_body_return _ _ _ _ on_error _ Htc).
    destruct (m_values _ _ Hm) as [Hnone Hni]. by rewrite !decide_False.
  - assert (Htc : translate_chars self (s ++ str1 c)
                  = (Raise (formatted_TranslationError
                              (not_in_allowed_chars (s ++ str1 c))), self)).
    { apply MapTranslation_translate_chars_unknown; [done|].
      simpl. rewrite elem_of_keys, Hm. by intros [? ?]. }
    destruct (ascii_decodable (s ++ str1 c)) eqn:Hascii.
    + rewrite formatted_TranslationError_ascii in Htc by done.
      rewrite (loop_body_translation_error _ _ _ _ on_error _ Htc).
      destruct (decide (on_error = RAISE_ON_ERROR)); [done|].
      by destruct (decide (on_error = IGNORE_ON_ERROR ∨ on_error = PyNone)).
    + rewrite formatted_TranslationError_high in Htc by done.
      by rewrite (loop_body_other_exception _ _ _ _ on_error _ Htc).
Qed.

(** With [min_chars = max_chars = n], a message is read in units of [n]
    characters.  On a message whose units that are not keys are 7-bit: with
    [IGNORE_ON_ERROR] or no [on_error] the run yields the mapped objects of
    the units that are keys, in order, and nothing for the others; with a
    replacement object it yields one output per unit.  A last piece shorter
    than [n] is left in the queue without output or error. *)
Theorem fixed_width_translate (chunks : list string) (last : string)
    (on_error : pyval) :
  (1 ≤ n)%nat →
  (∀ chunk, chunk ∈ chunks → String.length chunk = n) →
  (∀ chunk, chunk ∈ chunks → m !! chunk = None →
            ascii_decodable chunk = true) →
  (String.length last < n)%nat →
  (on_error = IGNORE_ON_ERROR ∨ on_error = PyNone →
   translate self (foldr String.append last chunks) on_error
   = mk_run (omap (λ chunk, m !! chunk) chunks) StopIteration self last)
  ∧ (on_error ≠ RAISE_ON_ERROR → on_error ≠ IGNORE_ON_ERROR →
     on_error ≠ PyNone →
     translate self (foldr String.append last chunks) on_error
     = mk_run (List.map (λ chunk, default on_error (m !! chunk)) chunks)
         StopIteration self last).
Proof.
  intros Hn Hchunks Hascii Hlast. unfold translate.
  change (reset self) with self.
  induction chunks as [|chunk chunks IH].
  - simpl foldr.
    assert (Hend : ∀ o, translate_loop self "" last o
                        = mk_run [] StopIteration self last).
    { intros o. rewrite <- (append_empty_r last) at 1.
      by rewrite (fixed_width_pending "" last "" o) by (simpl; lia). }
    split; intros; apply Hend.
  - destruct IH as [IHi IHr].
    { intros ch Hch. apply Hchunks. by right. }
    { intros ch Hch. apply Hascii. by right. }
    simpl foldr.
    rewrite (fixed_width_chunk chunk _ on_error) by (try apply Hchunks; by left || done).
    pose proof (Hascii chunk (list_elem_of_here _ _)) as H7.
    split.
    + intros Hpol. simpl omap. destruct (m !! chunk) as [v|].
      * by rewrite (IHi Hpol).
      * rewrite (H7 eq_refl).
        rewrite decide_False by (destruct Hpol; congruence).
        rewrite decide_True by done. by rewrite (IHi Hpol).
    + intros Hr Hi Hnone. simpl List.map. destruct (m !! chunk) as [v|].
      * by rewrite (IHr Hr Hi Hnone).
      * rewrite (H7 eq_refl). rewrite decide_False by done.
        rewrite decide_False by (intros [?|?]; done).
        by rewrite (IHr Hr Hi Hnone).
Qed.
End FixedWidth.

(** A two-character map on ['abxxcdc']. *)
Lemma fixed_width_translate_witness :
  translate
    (MapTranslation_init (<["ab" := PyInt 1]> (<["cd" := PyInt 2]> ∅)) 2 2 None)
    "abxxcdc" PyNone
  = mk_run [PyInt 1; PyInt 2] StopIteration
      (MapTranslation_init (<["ab" := PyInt 1]> (<["cd" := PyInt 2]> ∅)) 2 2
         None) "c".
Proof.
  apply (proj1 (fixed_width_translate
                  (<["ab" := PyInt 1]> (<["cd" := PyInt 2]> ∅)) 2%nat
                  ltac:(intros k v [[_ <-]|[_ [[_ <-]|[_ Hk]]%lookup_insert_Some]]%lookup_insert_Some;
                        [split; discriminate | split; discriminate
                        | by rewrite lookup_empty in Hk])
                  ["ab"; "xx"; "cd"] "c" PyNone ltac:(lia)
                  ltac:(intros chunk Hc;
                        repeat (apply elem_of_cons in Hc as [->|Hc]; [reflexivity|]);
                        by apply elem_of_nil in Hc)
                  ltac:(intros chunk Hc _;
                        repeat (apply elem_of_cons in Hc as [->|Hc]; [reflexivity|]);
                        by apply elem_of_nil in Hc)
                  ltac:(simpl; lia))).
  by right.
Defined.
